(** * Gotta-List-Em-All: the scrape-to-FileExchange pipeline
    (src/src/ebay_scrape_to_fileexchange.py), shallow embedding.

    Python [str] values are Rocq [string]s, one [ascii] per code point
    (code points 0..255, read as Latin-1).  Python dicts are stdpp
    [gmap]s; a dict whose insertion order matters is an association list.
    Python floats are binary64 values, [spec_float] with precision 53 and
    maximal exponent 1024; [float(s)] and [f"{x:.2f}"] are modelled
    exactly (correct rounding, round half to even) in module [PyFloat]. *)

From Stdlib Require Import String Ascii ZArith Lia Bool.
From Stdlib Require Import SpecFloat.
From stdpp Require Import base list gmap strings.

Local Open Scope string_scope.
Local Set Warnings "-register-all".

(* ------------------------------------------------------------------ *)
(** ** Python string primitives *)

Module PyStr.

(** [Py_UNICODE_ISSPACE] restricted to code points below 256. *)
Definition is_space (c : ascii) : bool :=
  let n := nat_of_ascii c in
  (Nat.leb 9 n && Nat.leb n 13) || (Nat.leb 28 n && Nat.leb n 32)
  || Nat.eqb n 133 || Nat.eqb n 160.

Fixpoint lstrip (s : string) : string :=
  match s with
  | EmptyString => EmptyString
  | String c r => if is_space c then lstrip r else s
  end.

Fixpoint rev_str (s : string) (acc : string) : string :=
  match s with
  | EmptyString => acc
  | String c r => rev_str r (String c acc)
  end.

Definition rstrip (s : string) : string :=
  rev_str (lstrip (rev_str s EmptyString)) EmptyString.

(** [s.strip()] *)
Definition strip (s : string) : string := rstrip (lstrip s).

(** [s.startswith(p)] *)
Definition startswith (s p : string) : bool := String.prefix p s.

(** [s.replace(pat, repl)] for a non-empty [pat] (the only use in the
    source is [h.replace("C:", "")]): scan left to right, replacing each
    non-overlapping occurrence.  [fuel] bounds the number of steps; one
    step per character of [s] suffices. *)
Fixpoint replace_fuel (fuel : nat) (pat repl s : string) : string :=
  match fuel with
  | O => s
  | S f =>
      match s with
      | EmptyString => EmptyString
      | String c r =>
          if String.prefix pat s
          then repl ++ replace_fuel f pat repl
                         (substring (String.length pat)
                            (String.length s - String.length pat) s)
          else String c (replace_fuel f pat repl r)
      end
  end.

Definition replace (s pat repl : string) : string :=
  replace_fuel (S (String.length s)) pat repl s.

(** [x in xs] for a list of strings. *)
Definition list_in (x : string) (xs : list string) : bool :=
  existsb (String.eqb x) xs.

(** Python truthiness of a [str] and [a or b] on strings. *)
Definition truthy (s : string) : bool := negb (String.eqb s "").

Definition or_str (a b : string) : string := if truthy a then a else b.

(** [a or b] on [Optional[str]] values ([None] and [""] are falsy). *)
Definition or_opt (a b : option string) : option string :=
  match a with
  | Some s => if truthy s then a else b
  | None => b
  end.

End PyStr.

(* ------------------------------------------------------------------ *)
(** ** Python floats: [float(str)] and [format(x, ".2f")] *)

Module PyFloat.

Local Open Scope Z_scope.
Local Open Scope string_scope.

Definition prec : Z := 53.
Definition emax : Z := 1024.

Abbreviation pyfloat := spec_float.

Definition is_digit (c : ascii) : bool :=
  let n := nat_of_ascii c in Nat.leb 48 n && Nat.leb n 57.

Definition digit_val (c : ascii) : Z := Z.of_nat (nat_of_ascii c - 48).

Definition lower (c : ascii) : ascii :=
  let n := nat_of_ascii c in
  if Nat.leb 65 n && Nat.leb n 90 then ascii_of_nat (n + 32) else c.

Fixpoint lower_str (s : string) : string :=
  match s with
  | EmptyString => EmptyString
  | String c r => String (lower c) (lower_str r)
  end.

(** [_Py_string_to_number_with_underscores]: an underscore is dropped
    when it follows a digit and precedes a digit; any other underscore
    makes the conversion fail.  [prev] is the previous character
    ([None] at the start). *)
Fixpoint drop_underscores (prev : option ascii) (s : string) : option string :=
  match s with
  | EmptyString =>
      match prev with
      | Some "_"%char => None
      | _ => Some EmptyString
      end
  | String c r =>
      if Ascii.eqb c "_"
      then match prev with
           | Some p => if is_digit p then drop_underscores (Some c) r else None
           | None => None
           end
      else match prev with
           | Some "_"%char =>
               if is_digit c
               then option_map (String c) (drop_underscores (Some c) r)
               else None
           | _ => option_map (String c) (drop_underscores (Some c) r)
           end
  end.

(** A run of decimal digits: the digits read (most significant first)
    and the rest of the input. *)
Fixpoint digits (s : string) : string * string :=
  match s with
  | String c r =>
      if is_digit c then let '(d, rest) := digits r in (String c d, rest)
      else (EmptyString, s)
  | EmptyString => (EmptyString, EmptyString)
  end.

Fixpoint digits_value_acc (acc : Z) (s : string) : Z :=
  match s with
  | EmptyString => acc
  | String c r => digits_value_acc (10 * acc + digit_val c) r
  end.

Definition digits_value (s : string) : Z := digits_value_acc 0 s.

(** An optional sign: [true] for ['-']. *)
Definition sign (s : string) : bool * string :=
  match s with
  | String "-"%char r => (true, r)
  | String "+"%char r => (false, r)
  | _ => (false, s)
  end.

(** The exact decimal value [m * 10^k] (with [m >= 0]) rounded to
    binary64, to nearest with ties to even, overflowing to infinity. *)
Definition round_decimal (neg : bool) (m k : Z) : pyfloat :=
  if Z.eqb m 0 then S754_zero neg
  else if Z.leb 0 k
  then binary_round_aux prec emax neg (m * 10 ^ k) 0 loc_Exact
  else let '(q, e, l) := SFdiv_core_binary prec emax m 0 (10 ^ (- k)) 0 in
       binary_round_aux prec emax neg q e l.

(** [_Py_dg_strtod] on a whole string: [sign] then [digits [. digits]]
    or [. digits], then an optional exponent [(e|E) sign digits]; at
    least one mantissa digit.  [None] when the whole string is not
    consumed. *)
Definition strtod (s : string) : option pyfloat :=
  let '(neg, s1) := sign s in
  let '(ip, s2) := digits s1 in
  let '(fp, s3) :=
    match s2 with
    | String "."%char r => digits r
    | _ => (EmptyString, s2)
    end in
  if String.eqb (ip ++ fp) "" then None
  else
    let exp :=
      match s3 with
      | String c r =>
          if Ascii.eqb (lower c) "e"
          then let '(eneg, r1) := sign r in
               let '(ed, r2) := digits r1 in
               if String.eqb ed "" then None
               else if String.eqb r2 "" then
                 Some (if eneg then - digits_value ed else digits_value ed)
               else None
          else None
      | EmptyString => Some 0
      end in
    match exp with
    | None => None
    | Some x =>
        Some (round_decimal neg (digits_value (ip ++ fp))
                (x - Z.of_nat (String.length fp)))
    end.

(** [_Py_parse_inf_or_nan]: sign, then [inf], [infinity] or [nan],
    case-insensitively. *)
Definition parse_inf_or_nan (s : string) : option pyfloat :=
  let '(neg, r) := sign s in
  let w := lower_str r in
  if String.eqb w "inf" || String.eqb w "infinity" then Some (S754_infinity neg)
  else if String.eqb w "nan" then Some S754_nan
  else None.

(** [_PyUnicode_TransformDecimalAndSpaceToASCII]: a code point below
    127 is kept, any other whitespace ([Py_UNICODE_ISSPACE]) becomes a
    space, and anything else becomes ['?'], where the result is cut
    (no code point of 127..255 is a decimal digit). *)
Fixpoint to_ascii (s : string) : string :=
  match s with
  | EmptyString => EmptyString
  | String c r =>
      if Nat.ltb (nat_of_ascii c) 127 then String c (to_ascii r)
      else if PyStr.is_space c then String " " (to_ascii r)
      else String "?" EmptyString
  end.

(** [Py_ISSPACE]: the ASCII whitespace of [float_from_string_inner]:
    space, tab, newline, vertical tab, form feed, carriage return. *)
Definition is_ascii_space (c : ascii) : bool :=
  let n := nat_of_ascii c in (Nat.leb 9 n && Nat.leb n 13) || Nat.eqb n 32.

Fixpoint ascii_lstrip (s : string) : string :=
  match s with
  | EmptyString => EmptyString
  | String c r => if is_ascii_space c then ascii_lstrip r else s
  end.

Definition ascii_strip (s : string) : string :=
  PyStr.rev_str (ascii_lstrip (PyStr.rev_str (ascii_lstrip s) EmptyString)) EmptyString.

(** [float(s)] for a [str] argument ([PyFloat_FromString]): the text is
    made ASCII, underscores between digits are removed, surrounding
    ASCII whitespace is stripped, then the text must be a decimal
    literal or an infinity or NaN spelling; [None] stands for the
    [ValueError]. *)
Definition py_float (s : string) : option pyfloat :=
  match drop_underscores None (to_ascii s) with
  | None => None
  | Some s' =>
      let t := ascii_strip s' in
      match strtod t with
      | Some x => Some x
      | None => parse_inf_or_nan t
      end
  end.

(** Decimal digits of a non-negative integer, most significant first;
    [fuel] is an upper bound on the number of digits. *)
Fixpoint dec_fuel (fuel : nat) (n : Z) (acc : string) : string :=
  match fuel with
  | O => acc
  | S f =>
      let acc' := String (ascii_of_nat (48 + Z.to_nat (n mod 10))) acc in
      if Z.ltb n 10 then acc' else dec_fuel f (n / 10) acc'
  end.

Definition dec (n : Z) : string := dec_fuel (S (Z.to_nat (Z.log2 (Z.max n 1)))) n "".

(** [m * 2^e * 100] rounded to an integer, ties to even. *)
Definition scaled_cents (m : positive) (e : Z) : Z :=
  if Z.leb 0 e then Z.pos m * 2 ^ e * 100
  else
    let num := Z.pos m * 100 in
    let den := 2 ^ (- e) in
    let q := num / den in
    let r := num mod den in
    if Z.ltb den (2 * r) || (Z.eqb (2 * r) den && Z.odd q) then q + 1 else q.

Definition two_digits (n : Z) : string :=
  String (ascii_of_nat (48 + Z.to_nat (n / 10))) (String (ascii_of_nat (48 + Z.to_nat (n mod 10))) "").

(** [f"{x:.2f}"] *)
Definition format_2f (x : pyfloat) : string :=
  match x with
  | S754_zero s => if s then "-0.00" else "0.00"
  | S754_infinity s => if s then "-inf" else "inf"
  | S754_nan => "nan"
  | S754_finite s m e =>
      let c := scaled_cents m e in
      (if s then "-" else "") ++ dec (c / 100) ++ "." ++ two_digits (c mod 100)
  end.

End PyFloat.

(* ------------------------------------------------------------------ *)
(** ** Row reconciliation: [normalize_price] and [build_output_row] *)

Module Reconcile.

Import PyStr PyFloat.

(** A seed row, a scraped item-specifics mapping and the output row
    under construction are Python dicts from [str] to [str]. *)
Abbreviation dict := (gmap string string).

(** Exceptions the reconciler can raise. *)
Inductive py_exn :=
| KeyError (k : string).

Inductive result (A : Type) :=
| Ok (a : A)
| Raise (e : py_exn).
Arguments Ok {A} a.
Arguments Raise {A} e.

(** [d.get(k, default)] *)
Definition get (d : dict) (k default : string) : string :=
  from_option id default (d !! k).

(** [CONDITION_MAP] *)
Definition CONDITION_MAP (k : string) : option Z :=
  if String.eqb k "New" then Some 1000%Z
  else if String.eqb k "New (Other)" then Some 1500%Z
  else if String.eqb k "Used" then Some 3000%Z
  else None.

(** [DEFAULTS] *)
Definition DEFAULT_Format := "FixedPrice".
Definition DEFAULT_DurationFixedPrice := "GTC".
Definition DEFAULT_DurationAuction := "Days_7".
Definition DEFAULT_Quantity : Z := 1.
Definition DEFAULT_Location := "".
Definition DEFAULT_ShippingType := "Flat".

(** [normalize_price(val, scraped)] *)
Definition normalize_price (val : option string) (scraped : option pyfloat)
  : option pyfloat :=
  match val with
  | Some v =>
      if truthy v
      then match py_float v with Some f => Some f | None => scraped end
      else scraped
  | None => scraped
  end.

(** [str(n)] for the integers the reconciler prints. *)
Definition str_Z (n : Z) : string :=
  if Z.ltb n 0 then "-" ++ dec (- n) else dec n.

(** The local values [build_output_row] computes from the seed row. *)

(** [seed.get("Condition", "").strip() or seed.get("ConditionOverride","").strip()] *)
Definition cond_override (seed : dict) : string :=
  or_str (strip (get seed "Condition" "")) (strip (get seed "ConditionOverride" "")).

(** [cond_id] *)
Definition cond_id (seed : dict) : Z :=
  match CONDITION_MAP (cond_override seed) with
  | Some n => n
  | None => 3000%Z
  end.

(** [seed.get("Price") or seed.get("PriceOverride")] *)
Definition price_override (seed : dict) : option string :=
  or_opt (seed !! "Price") (seed !! "PriceOverride").

(** [price_val] *)
Definition price_val (seed : dict) (price : option pyfloat) : option pyfloat :=
  normalize_price (price_override seed) price.

(** [qty = seed.get("Quantity") or seed.get("QuantityOverride") or str(DEFAULTS["Quantity"])] *)
Definition qty (seed : dict) : string :=
  from_option id "" (or_opt (or_opt (seed !! "Quantity") (seed !! "QuantityOverride"))
                            (Some (str_Z DEFAULT_Quantity))).

(** [picture_url] *)
Definition picture_url (seed : dict) (images : list string) : string :=
  or_str (strip (get seed "PhotoURL" ""))
         (match images with i :: _ => i | [] => "" end).

(** [ship_type] *)
Definition ship_type (seed : dict) : string :=
  or_str (or_str (strip (get seed "ShippingType" ""))
                 (strip (get seed "ShippingTypeOverride" "")))
         DEFAULT_ShippingType.

(** [specifics_map], in its insertion order. *)
Definition specifics_map (seed : dict) : list (string * string) :=
  [("C:Card Condition", get seed "CardCondition" "");
   ("CD:Professional Grader - (ID: 27501)", get seed "ProfessionalGrader" "");
   ("CD:Grade - (ID: 27502)", get seed "Grade" "");
   ("CDA:Certification Number - (ID: 27503)", get seed "CertNumber" "")].

(** [next((h for h in headers if h.startswith("*Action(")), None)] *)
Fixpoint action_col (headers : list string) : option string :=
  match headers with
  | [] => None
  | h :: hs => if startswith h "*Action(" then Some h else action_col hs
  end.

(** [if cond: row[k] = v] *)
Definition set_if (cond : bool) (k v : string) (row : dict) : dict :=
  if cond then <[k := v]> row else row.

(** [for k, v in specifics_map.items(): if k in headers and v: row[k] = v] *)
Definition put_seed_specifics (headers : list string) (seed : dict) (row : dict) : dict :=
  foldl (fun r '(k, v) => set_if (list_in k headers && truthy v) k v r)
        row (specifics_map seed).

(** One iteration of the loop over [headers] filling [C:] columns. *)
Definition scraped_specific_step (scraped_specifics : dict) (row : dict) (h : string) : dict :=
  if startswith h "C:"
  then let key := strip (replace h "C:" "") in
       match scraped_specifics !! key with
       | Some v => set_if (truthy v) h v row
       | None => row
       end
  else row.

Definition put_scraped_specifics (headers : list string) (scraped_specifics : dict)
    (row : dict) : dict :=
  foldl (scraped_specific_step scraped_specifics) row headers.

(** The statements from [# Price/Quantity] down to the item-specifics
    loop, applied to the row built so far. *)
Definition finish_row (headers : list string) (seed : dict) (price : option pyfloat)
    (images : list string) (scraped_specifics : dict) (row : dict) : dict :=
  let has h := list_in h headers in
  let row := match price_val seed price with
             | Some p => set_if (has "*StartPrice") "*StartPrice" (format_2f p) row
             | None => row
             end in
  let row := set_if (has "*Quantity") "*Quantity" (qty seed) row in
  let row := set_if (has "PictureURL") "PictureURL" (picture_url seed images) row in
  let st := ship_type seed in
  let row := set_if (has "ShippingType") "ShippingType" st row in
  let row := set_if (has "*Location") "*Location"
               (or_str (get seed "LocationOverride" "") DEFAULT_Location) row in
  let row :=
    if String.eqb st "Flat"
    then
      let row := set_if (has "ShippingService-1:Option") "ShippingService-1:Option"
                   (or_str (get seed "FlatService" "") (get seed "ShippingService1_Option" "")) row in
      set_if (has "ShippingService-1:Cost") "ShippingService-1:Cost"
        (or_str (get seed "FlatCost" "") (get seed "ShippingService1_Cost" "")) row
    else row in
  let row := set_if (has "*ReturnsAcceptedOption") "*ReturnsAcceptedOption" "ReturnsAccepted" row in
  let row := set_if (has "ShippingCostPaidByOption") "ShippingCostPaidByOption"
               (get seed "PostagePaidBy" "Buyer") row in
  let row := put_seed_specifics headers seed row in
  put_scraped_specifics headers scraped_specifics row.

(** The statements of [build_output_row] up to [# Format/Duration]. *)
Definition start_row (headers : list string) (seed : dict)
    (scraped_title scraped_desc_text category_id : string) : dict :=
  let has h := list_in h headers in
  let row : dict := foldl (fun r h => <[h := ""]> r) ∅ headers in
  let row := match action_col headers with
             | Some a => if truthy a then <[a := "Add"]> row else row
             | None => row
             end in
  let row := <["CustomLabel" := get seed "CustomLabel" ""]> row in
  let row := set_if (has "*Category") "*Category" (or_str category_id "") row in
  let row := set_if (has "*Title") "*Title" scraped_title row in
  let row := set_if (has "Subtitle") "Subtitle" "" row in
  let row := set_if (has "*ConditionID") "*ConditionID" (str_Z (cond_id seed)) row in
  let row := set_if (has "*Description") "*Description" scraped_desc_text row in
  set_if (has "*Format") "*Format" (get seed "FormatOverride" DEFAULT_Format) row.

(** The dict [row] of [build_output_row] at its [return].  The only
    statement that can raise is the read [row["*Format"]] in the
    [*Duration] branch. *)
Definition build_row (headers : list string) (seed : dict)
    (scraped_title scraped_desc_text : string) (price : option pyfloat)
    (category_id condition_text : string) (images : list string)
    (scraped_specifics : dict) : result dict :=
  let row := start_row headers seed scraped_title scraped_desc_text category_id in
  if list_in "*Duration" headers then
    match row !! "*Format" with
    | None => Raise (KeyError "*Format")
    | Some fmt =>
        let row := <["*Duration" :=
                       if String.eqb fmt "FixedPrice" then DEFAULT_DurationFixedPrice
                       else get seed "DurationOverride" DEFAULT_DurationAuction]> row in
        Ok (finish_row headers seed price images scraped_specifics row)
    end
  else Ok (finish_row headers seed price images scraped_specifics row).

(** [build_output_row]: [return [row.get(h, "") for h in headers]]. *)
Definition build_output_row (headers : list string) (seed : dict)
    (scraped_title scraped_desc_text : string) (price : option pyfloat)
    (category_id condition_text : string) (images : list string)
    (scraped_specifics : dict) : result (list string) :=
  match build_row headers seed scraped_title scraped_desc_text price category_id
          condition_text images scraped_specifics with
  | Ok row => Ok (map (fun h => get row h "") headers)
  | Raise e => Raise e
  end.

End Reconcile.

(* ------------------------------------------------------------------ *)
(** ** Text rewriting: [openai_optimize] *)

Module Rewriter.

Import PyStr.

(** The environment [openai_optimize] depends on: whether the [openai]
    package imported, the process environment, whether the client
    constructor [OpenAI(api_key=...)] raises, and the outcome of
    [client.chat.completions.create(...)] on a prompt followed by
    [resp.choices[0].message.content]: [None] when that expression
    raises (network, quota, malformed response), [Some None] when the
    content is [None] (so [.strip()] raises), [Some (Some c)] when it
    is the string [c]. *)
Record env := {
  openai_imported : bool;
  environ : gmap string string;
  client_raises : bool;
  completion : string -> option (option string)
}.

(** Result of a call: the returned string, or an exception that
    escapes the function. *)
Inductive outcome :=
| Returned (s : string)
| Raised.

(** The double-quote character. *)
Definition dq : string := String "034"%char EmptyString.

(** [TITLE_PROMPT.format(title=text)] and [DESC_PROMPT.format(description=text)] *)
Definition TITLE_PROMPT (title : string) : string :=
  "You are an expert eBay seller. Rewrite this title to maximize clicks and keyword relevance.
Rules:
- ≤ 80 characters (hard limit).
- Keep critical keywords first; no keyword stuffing.
- No ALL CAPS, no emojis, no misleading claims.
- Keep brand, year/series, character, #, parallel/variant where applicable.
- American spelling; title case; remove duplicate words.
Original: " ++ dq ++ title ++ dq ++ "
Return ONLY the new title.
".

Definition DESC_PROMPT (description : string) : string :=
  "You are an expert eBay seller. Rewrite this description to be clear, factual, and conversion-focused.
Rules:
- Preserve 100% factual accuracy; do not invent details.
- Open with a concise summary (what it is, key features, condition).
- Then bullet points: condition specifics, inclusions, shipping/returns highlights.
- No prohibited language; no guarantees or unverifiable claims.
- Keep formatting simple (plain text or basic bullets).
Original description:
" ++ description ++ "

Return ONLY the revised description (no extra commentary).
".

(** [openai_optimize(text, is_title)] *)
Definition openai_optimize (E : env) (text : string) (is_title : bool) : outcome :=
  if negb (openai_imported E) then Returned text
  else
    let api_key := from_option id "" (environ E !! "OPENAI_API_KEY") in
    if negb (truthy api_key) then Returned text
    else if client_raises E then Raised
    else
      let prompt := if is_title then TITLE_PROMPT text else DESC_PROMPT text in
      match completion E prompt with
      | Some (Some content) =>
          let out := strip content in
          Returned (if is_title then substring 0 80 out else out)
      | _ => Returned text
      end.

(** The title handed to the reconciler in [main]:
    [openai_optimize(scraped.title, is_title=True) if do_title_opt else scraped.title]. *)
Definition opt_title (E : env) (do_title_opt : bool) (title : string) : outcome :=
  if do_title_opt then openai_optimize E title true else Returned title.

End Rewriter.

(* ------------------------------------------------------------------ *)
(** ** Structured extraction: the image list of [scrape_ebay_listing] *)

Module Scrape.

Import PyStr.

(** JSON values as [json.loads] returns them. *)
Inductive json :=
| JNull
| JBool (b : bool)
| JNum (literal : string)
| JStr (s : string)
| JArr (xs : list json)
| JObj (kvs : list (string * json)).

(** The values of one [image]/[images] field that the loop keeps:
    [images.extend([v for v in val if isinstance(v, str) and v.startswith("http")])]
    for a list, [images.append(val)] for an [http] string. *)
Definition field_images (val : option json) : list string :=
  match val with
  | Some (JArr vs) =>
      List.flat_map (fun v => match v with
                              | JStr s => if startswith s "http" then [s] else []
                              | _ => []
                              end) vs
  | Some (JStr s) => if startswith s "http" then [s] else []
  | _ => []
  end.

(** [images] after [for key in ["image", "images"]: ...], for the
    [Product] dict [product]. *)
Definition collect_images (product : gmap string json) : list string :=
  field_images (product !! "image") ++ field_images (product !! "images").

(** [list(dict.fromkeys(xs))]: a key keeps the position of its first
    insertion. *)
Definition dict_fromkeys (xs : list string) : list string :=
  foldl (fun acc x => if list_in x acc then acc else app acc [x]) [] xs.

(** [result.images] *)
Definition images (product : gmap string json) : list string :=
  dict_fromkeys (collect_images product).

(** The spec's "first-seen order, de-duplicated": the entries of [xs]
    whose value does not occur earlier in [xs], in order. *)
Definition first_seen (xs : list string) : list string :=
  List.map fst (List.filter (fun p => negb (list_in (fst p) (firstn (snd p) xs)))
                  (combine xs (List.seq 0 (length xs)))).

End Scrape.

(* ------------------------------------------------------------------ *)
(** ** Notions of the spec, for comparison with the code *)

Module SpecNotions.

Import PyStr PyFloat.

Fixpoint all_digits (s : string) : bool :=
  match s with
  | EmptyString => true
  | String c r => is_digit c && all_digits r
  end.

(** A finite float (zero included), as [math.isfinite]. *)
Definition is_finite (x : pyfloat) : bool :=
  match x with
  | S754_zero _ | S754_finite _ _ _ => true
  | _ => false
  end.

(** "formatted with exactly two decimal places": an optional minus
    sign, one or more digits, a point and exactly two digits. *)
Definition two_decimals (s : string) : bool :=
  let body := match s with
              | String c r => if Ascii.eqb c "-" then r else s
              | EmptyString => s
              end in
  match PyStr.rev_str body EmptyString with
  | String d2 (String d1 (String p ip)) =>
      Ascii.eqb p "." && is_digit d1 && is_digit d2 && truthy ip && all_digits ip
  | _ => false
  end.

(** The keys [finish_row] writes outside the [C:] columns. *)
Definition finish_keys : list string :=
  ["*StartPrice"; "*Quantity"; "PictureURL"; "ShippingType"; "*Location";
   "ShippingService-1:Option"; "ShippingService-1:Cost"; "*ReturnsAcceptedOption";
   "ShippingCostPaidByOption"; "C:Card Condition";
   "CD:Professional Grader - (ID: 27501)"; "CD:Grade - (ID: 27502)";
   "CDA:Certification Number - (ID: 27503)"].

End SpecNotions.

(* ------------------------------------------------------------------ *)
(** ** More of [scrape_ebay_listing]: [parse_json_ld], the price, the
    category and the item specifics *)

Module ScrapeLD.

Import PyStr PyFloat Scrape.

Local Open Scope string_scope.

(** A JSON object as the dict [json.loads] builds from it: a repeated
    key keeps its last value. *)
Definition obj_dict (kvs : list (string * json)) : gmap string json :=
  foldl (fun m '(k, v) => <[k := v]> m) ∅ kvs.

(** Python numbers. *)
Inductive pynum :=
| PInt (z : Z)
| PFloat (f : pyfloat).

Fixpoint has_char (c : ascii) (s : string) : bool :=
  match s with
  | EmptyString => false
  | String d r => Ascii.eqb c d || has_char c r
  end.

(** A JSON number literal without fraction and exponent, which the
    decoder reads with [int]. *)
Definition is_int_literal (lit : string) : bool :=
  negb (has_char "." lit || has_char "e" lit || has_char "E" lit
        || String.eqb lit "NaN" || String.eqb lit "Infinity"
        || String.eqb lit "-Infinity").

(** The number [json.loads] makes of a number literal: [int(lit)] for
    an integer literal, [float(lit)] otherwise ([NaN], [Infinity] and
    [-Infinity] included).  [py_float] accepts every literal of the
    JSON number grammar; the [S754_nan] default is only reached for a
    text that is no JSON literal. *)
Definition json_num (lit : string) : pynum :=
  if is_int_literal lit
  then PInt (let '(neg, r) := sign lit in
             if neg then (- digits_value r)%Z else digits_value r)
  else PFloat (from_option id S754_nan (py_float lit)).

(** Python truthiness of a decoded JSON value. *)
Definition json_truthy (v : json) : bool :=
  match v with
  | JNull => false
  | JBool b => b
  | JNum lit =>
      match json_num lit with
      | PInt z => negb (Z.eqb z 0)
      | PFloat (S754_zero _) => false
      | PFloat _ => true
      end
  | JStr s => truthy s
  | JArr xs => match xs with [] => false | _ => true end
  | JObj kvs => match kvs with [] => false | _ => true end
  end.

(** [float(n)] for an [int] [n]: correctly rounded, [OverflowError]
    ([None]) when the rounded value is beyond the largest float. *)
Definition int_to_float (z : Z) : option pyfloat :=
  match round_decimal (Z.ltb z 0) (Z.abs z) 0 with
  | S754_infinity _ => None
  | x => Some x
  end.

(** [float(v)] for a decoded JSON value; [None] stands for the
    exception it raises ([ValueError], [OverflowError], [TypeError]).
    [bool] is a subclass of [int]. *)
Definition json_float (v : json) : option pyfloat :=
  match v with
  | JStr s => py_float s
  | JNum lit =>
      match json_num lit with
      | PInt z => int_to_float z
      | PFloat f => Some f
      end
  | JBool b => int_to_float (if b then 1 else 0)%Z
  | JNull | JArr _ | JObj _ => None
  end.

(** [result.price] after
    [if offer.get("price"): try: result.price = float(offer["price"]) except Exception: pass],
    for the dict [offer = ld.get("Offer", {})]. *)
Definition scraped_price (offer : gmap string json) : option pyfloat :=
  match offer !! "price" with
  | Some v => if json_truthy v then json_float v else None
  | None => None
  end.

(** The [@type] values kept from a top-level JSON array. *)
Definition ld_types : list string := ["Product"; "Offer"; "BreadcrumbList"].

(** The keys [data] can get besides strings: the [@type] of a
    top-level dict that is a number or a boolean.  A list or dict
    [@type] is unhashable: [data[...] = parsed] raises [TypeError],
    which the loop catches. *)
Inductive pykey :=
| KBool (b : bool)
| KInt (z : Z)
| KFloat (f : pyfloat).

(** [bool] is a subclass of [int]. *)
Definition num_of_key (k : pykey) : pynum :=
  match k with
  | KBool b => PInt (if b then 1 else 0)%Z
  | KInt z => PInt z
  | KFloat f => PFloat f
  end.

(** [f == z] for a float [f] and an int [z]: exact comparison. *)
Definition float_int_eq (f : pyfloat) (z : Z) : bool :=
  match f with
  | S754_zero _ => Z.eqb z 0
  | S754_finite s m e =>
      let v := if s then Z.neg m else Z.pos m in
      if Z.leb 0 e then Z.eqb z (v * 2 ^ e) else Z.eqb (z * 2 ^ (- e)) v
  | _ => false
  end.

(** [x == y] on Python numbers. *)
Definition num_eq (x y : pynum) : bool :=
  match x, y with
  | PInt a, PInt b => Z.eqb a b
  | PInt a, PFloat f | PFloat f, PInt a => float_int_eq f a
  | PFloat f, PFloat g => SFeqb f g
  end.

(** Two non-string keys find the same dict slot when they compare equal
    (equal numbers have equal hashes).  A NaN [@type] is a new float
    object for every tag, so identity never matches it either. *)
Definition key_eq (k1 k2 : pykey) : bool := num_eq (num_of_key k1) (num_of_key k2).

(** The key a non-string [@type] value makes. *)
Definition json_key (v : json) : option pykey :=
  match v with
  | JNum lit =>
      Some (match json_num lit with
            | PInt z => KInt z
            | PFloat f => KFloat f
            end)
  | JBool b => Some (KBool b)
  | _ => None
  end.

(** [data]: the dicts found, under their [@type].  A [str] key never
    equals a number or a boolean, so the string keys and the other keys
    are kept apart: [ld_strs] for the string keys (the code only ever
    stores dicts), [ld_others] for the others, in insertion order.
    The order between the two parts is not kept: the code only reads
    [data] with [ld.get] on string keys. *)
Record ld_data := LdData {
  ld_strs : gmap string (gmap string json);
  ld_others : list (pykey * gmap string json)
}.

Definition ld_empty : ld_data := LdData ∅ [].

(** [data[t] = d] for a string [t]. *)
Definition ld_set_str (t : string) (d : gmap string json) (data : ld_data) : ld_data :=
  LdData (<[t := d]> (ld_strs data)) (ld_others data).

(** [data[k] = d] for a non-string key [k]: an equal key already there
    keeps its place and its key object, and gets the new value. *)
Fixpoint set_other (k : pykey) (d : gmap string json)
    (l : list (pykey * gmap string json)) : list (pykey * gmap string json) :=
  match l with
  | [] => [(k, d)]
  | (k', d') :: r => if key_eq k' k then (k', d) :: r else (k', d') :: set_other k d r
  end.

Definition ld_set_other (k : pykey) (d : gmap string json) (data : ld_data) : ld_data :=
  LdData (ld_strs data) (set_other k d (ld_others data)).

(** One entry of a top-level JSON array:
    [if isinstance(entry, dict) and entry.get("@type") in (...): data[entry.get("@type")] = entry];
    only a string equals one of the three names. *)
Definition ld_entry (data : ld_data) (entry : json) : ld_data :=
  match entry with
  | JObj kvs =>
      let d := obj_dict kvs in
      match d !! "@type" with
      | Some (JStr t) => if list_in t ld_types then ld_set_str t d data else data
      | _ => data
      end
  | _ => data
  end.

(** One [<script type="application/ld+json">] tag, given as the value of
    [json.loads(tag.string or "{}")], [None] when it raises:
    [elif isinstance(parsed, dict) and parsed.get("@type"): data[parsed.get("@type")] = parsed]. *)
Definition ld_tag (data : ld_data) (parsed : option json) : ld_data :=
  match parsed with
  | None => data
  | Some (JArr entries) => foldl ld_entry data entries
  | Some (JObj kvs) =>
      let d := obj_dict kvs in
      match d !! "@type" with
      | Some v =>
          if json_truthy v
          then match v with
               | JStr t => ld_set_str t d data
               | _ => match json_key v with
                      | Some k => ld_set_other k d data
                      | None => data
                      end
               end
          else data
      | None => data
      end
  | Some _ => data
  end.

(** [parse_json_ld(soup)] over the decoded tags, in document order. *)
Definition parse_json_ld (tags : list (option json)) : ld_data :=
  foldl ld_tag ld_empty tags.

(** [ld.get(k, {})] for a string [k]. *)
Definition ld_get (ld : ld_data) (k : string) : gmap string json :=
  from_option id ∅ (ld_strs ld !! k).

(** [s.split(sep)] for a one-character separator. *)
Fixpoint split_char (sep : ascii) (s : string) : list string :=
  match s with
  | EmptyString => [""]
  | String c r =>
      let parts := split_char sep r in
      if Ascii.eqb c sep then "" :: parts
      else match parts with
           | p :: ps => String c p :: ps
           | [] => [String c ""]
           end
  end.

(** [s.split("/")[-1]] *)
Definition last_segment (s : string) : string :=
  List.last (split_char "/" s) "".

Section Category.

(** [str(v)] for a decoded JSON value that is not a string (Python's
    [repr] of a number, [True], [None], a list or a dict). *)
Variable str_other : json -> string.

(** [str(v)] *)
Definition py_str_json (v : json) : string :=
  match v with
  | JStr s => s
  | _ => str_other v
  end.

(** [result.category_id] after the breadcrumbs block, for the dict
    [breadcrumbs = ld.get("BreadcrumbList", {})]:
    [if breadcrumbs and "itemListElement" in breadcrumbs: try:
       last = breadcrumbs["itemListElement"][-1];
       result.category_id = str(last.get("item", {}).get("@id", "")).split("/")[-1]
     except Exception: pass].
    [[-1]] raises on an empty list and on anything but a list or a
    non-empty string; [.get] raises ([AttributeError]) on anything but
    a dict; the handler leaves the field at [""]. *)
Definition category_id (breadcrumbs : gmap string json) : string :=
  if bool_decide (breadcrumbs = ∅) then ""
  else
    match breadcrumbs !! "itemListElement" with
    | Some (JArr xs) =>
        match List.rev xs with
        | JObj kvs :: _ =>
            match from_option id (JObj []) (obj_dict kvs !! "item") with
            | JObj ikvs =>
                last_segment (py_str_json (from_option id (JStr "") (obj_dict ikvs !! "@id")))
            | _ => ""
            end
        | _ => ""
        end
    | _ => ""
    end.

End Category.

(** [s.lstrip(":")] *)
Fixpoint lstrip_colon (s : string) : string :=
  match s with
  | EmptyString => EmptyString
  | String c r => if Ascii.eqb c ":" then lstrip_colon r else s
  end.

(** [s.strip(":")] *)
Definition strip_colon (s : string) : string :=
  rev_str (lstrip_colon (rev_str (lstrip_colon s) EmptyString)) EmptyString.

(** The item-specifics loop of [scrape_ebay_listing], over the labels
    the page yields in document order: for each label, the text
    [lbl.get_text(" ", strip=True)] and the text
    [val.get_text(" ", strip=True)] of [val = lbl.find_next(...)],
    [None] when [find_next] finds nothing (a found [Tag] is truthy). *)
Definition item_specifics (labels : list (string * option string)) : gmap string string :=
  foldl (fun m '(ltxt, val) =>
           let key := strip_colon ltxt in
           match val with
           | Some vtxt => if truthy key && truthy vtxt then <[key := vtxt]> m else m
           | None => m
           end) ∅ labels.

End ScrapeLD.

(* ------------------------------------------------------------------ *)
(** ** The driver: [main] of the pipeline *)

Module Main.

Import PyStr PyFloat Reconcile Rewriter.

Local Open Scope string_scope.

(** [ScrapeResult] *)
Record ScrapeResult := {
  title : string;
  description_html : string;
  price : option pyfloat;
  category_id : string;
  condition_text : string;
  images : list string;
  item_specifics : gmap string string
}.

(** The command-line arguments; the integer options are [int]s. *)
Module Args.
Record t := {
  seed : string;
  template : string;
  out : option string;
  optimize : Z;
  use_selenium : Z;
  headless : Z;
  dry_run : Z;
  preview : option string;
  write_final : Z
}.
End Args.

(** [bool(n)] for an [int], and the truthiness of an optional [str]. *)
Definition pybool (n : Z) : bool := negb (Z.eqb n 0).

Definition opt_truthy (s : option string) : bool :=
  match s with Some x => truthy x | None => false end.

(** A preview row, the dict appended to [preview_rows]. *)
Record preview_row := {
  URL : string;
  Title_Scraped : string;
  Title_Optimized : string;
  TitleLen_Scraped : nat;
  TitleLen_Optimized : nat;
  Desc_Scraped_Snippet : string;
  Desc_Optimized_Snippet : string;
  PhotoURL : string;
  PostagePaidBy : string
}.

(** [str(Path(dir) / name)] for the resolved (absolute, POSIX) directory
    [dir]. *)
Definition path_join (dir name : string) : string :=
  if String.eqb dir "/" then dir ++ name else dir ++ "/" ++ name.

(** [default_path_near_seed(seed_path, basename)], given
    [Path(seed_path).resolve().parent] as [seed_dir] and the value [ts]
    of [timestamp_str()]. *)
Definition default_path_near_seed (seed_dir basename ts : string) : string :=
  path_join seed_dir (basename ++ "_" ++ ts ++ ".csv").

(** The exceptions that end a run, and the run's error monad. *)
Inductive main_exn :=
| ScrapeRaised
| RewriteRaised
| RowRaised (e : py_exn).

Inductive run (A : Type) :=
| Done (a : A)
| Abort (e : main_exn).
Arguments Done {A} a.
Arguments Abort {A} e.

Global Instance run_ret : MRet run := fun A a => Done a.
Global Instance run_bind : MBind run := fun A B f m =>
  match m with
  | Done a => f a
  | Abort e => Abort e
  end.

Definition of_outcome (o : outcome) : run string :=
  match o with
  | Returned s => Done s
  | Raised => Abort RewriteRaised
  end.

Definition of_result {A} (r : result A) : run A :=
  match r with
  | Ok a => Done a
  | Raise e => Abort (RowRaised e)
  end.

(** What a completed run writes: the preview CSV and the final CSV,
    each with its path and rows, when written. *)
Record main_out := {
  preview_written : option (string * list preview_row);
  final_written : option (string * list (list string))
}.

Section Driver.

(** [scrape_ebay_listing(url, use_selenium, headless)], [None] when it
    raises (network, parser, browser). *)
Variable scrape_ebay_listing : string -> bool -> bool -> option ScrapeResult.
(** [BeautifulSoup(h, "lxml").get_text("\n", strip=True)] *)
Variable html_text : string -> string.
(** The environment of [openai_optimize]. *)
Variable E : env.
(** [Path(p).resolve().parent] as a string. *)
Variable resolve_parent : string -> string.
(** The values [timestamp_str()] returns at the preview default and at
    the final-path default. *)
Variables ts_preview ts_out : string.

(** The body of [for _, seed in seed_df.iterrows(): ...] for one seed
    row: [None] for a row skipped by [continue], else the preview row
    (when [args.dry_run]) and the final row. *)
Definition main_row (a : Args.t) (headers : list string) (seed : dict)
  : run (option (option preview_row * list string)) :=
  let url := strip (get seed "URL" "") in
  if negb (truthy url) then mret None
  else
    scraped ← match scrape_ebay_listing url (pybool (Args.use_selenium a))
                                        (pybool (Args.headless a)) with
              | Some s => Done s
              | None => Abort ScrapeRaised
              end;
    let scraped_desc_text := html_text (or_str (description_html scraped) "") in
    let do_title_opt := String.eqb (get seed "OptimizeTitle" "Y") "Y" && pybool (Args.optimize a) in
    let do_desc_opt := String.eqb (get seed "OptimizeDescription" "Y") "Y" && pybool (Args.optimize a) in
    otitle ← of_outcome (opt_title E do_title_opt (title scraped));
    odesc ← (if do_desc_opt then of_outcome (openai_optimize E scraped_desc_text false)
             else Done scraped_desc_text);
    let prev :=
      if pybool (Args.dry_run a)
      then Some {| URL := url;
                   Title_Scraped := title scraped;
                   Title_Optimized := otitle;
                   TitleLen_Scraped := String.length (or_str (title scraped) "");
                   TitleLen_Optimized := String.length (or_str otitle "");
                   Desc_Scraped_Snippet := substring 0 400 (or_str scraped_desc_text "");
                   Desc_Optimized_Snippet := substring 0 400 (or_str odesc "");
                   PhotoURL := get seed "PhotoURL" "";
                   PostagePaidBy := get seed "PostagePaidBy" "Buyer" |}
      else None in
    row ← of_result (build_output_row headers seed otitle odesc (price scraped)
                       (category_id scraped) (condition_text scraped)
                       (images scraped) (item_specifics scraped));
    mret (Some (prev, row)).

(** The loop over the seed rows, accumulating [preview_rows] and
    [final_rows]. *)
Fixpoint main_loop (a : Args.t) (headers : list string) (seeds : list dict)
    (preview_rows : list preview_row) (final_rows : list (list string))
  : run (list preview_row * list (list string)) :=
  match seeds with
  | [] => mret (preview_rows, final_rows)
  | seed :: rest =>
      r ← main_row a headers seed;
      match r with
      | None => main_loop a headers rest preview_rows final_rows
      | Some (p, row) =>
          main_loop a headers rest
            (app preview_rows (match p with Some x => [x] | None => [] end))
            (app final_rows [row])
      end
  end.

(** [main()] after the template and seed files are read: [headers] is
    [tpl_df.iloc[0].dropna().tolist()] and [seeds] the rows of
    [pd.read_csv(args.seed, dtype=str).fillna("")], each a dict holding
    every column.  An exception ends the run before any file is
    written. *)
Definition main (a : Args.t) (headers : list string) (seeds : list dict) : run main_out :=
  let dry := pybool (Args.dry_run a) in
  let final_cond := negb dry || (dry && pybool (Args.write_final a)) in
  let preview :=
    if dry && negb (opt_truthy (Args.preview a))
    then Some (default_path_near_seed (resolve_parent (Args.seed a)) "EBAY_PREVIEW" ts_preview)
    else Args.preview a in
  let out :=
    if negb (opt_truthy (Args.out a)) && final_cond
    then Some (default_path_near_seed (resolve_parent (Args.seed a)) "FINAL_EBAY_UPLOAD" ts_out)
    else Args.out a in
  '(preview_rows, final_rows) ← main_loop a headers seeds [] [];
  mret {| preview_written :=
            if dry && opt_truthy preview
            then match preview with Some p => Some (p, preview_rows) | None => None end
            else None;
          final_written :=
            if final_cond
            then match out with Some o => Some (o, final_rows) | None => None end
            else None |}.

End Driver.

End Main.

(* ================================================================== *)
(** * Facts about the Python string primitives *)

Module PyStrFacts.

Import PyStr.

Lemma list_in_true (x : string) (xs : list string) :
  list_in x xs = true ↔ x ∈ xs.
Proof.
  unfold list_in. rewrite existsb_exists. split.
  - intros (y & Hy & Heq). apply String.eqb_eq in Heq. subst.
    by apply list_elem_of_In.
  - intros Hx. exists x. split; [by apply list_elem_of_In | apply String.eqb_refl].
Qed.

End PyStrFacts.

(* ================================================================== *)
(** * Properties of [format_2f] *)

Module FormatFacts.

Import PyStr PyFloat SpecNotions.

Local Open Scope Z_scope.
Local Open Scope string_scope.

Lemma rev_str_app (a b acc : string) :
  rev_str (a ++ b) acc = rev_str b (rev_str a acc).
Proof. revert acc. induction a as [|c a IH]; intros acc; simpl; auto. Qed.

Lemma all_digits_rev_str (a acc : string) :
  all_digits (rev_str a acc) = all_digits a && all_digits acc.
Proof.
  revert acc. induction a as [|c a IH]; intros acc; simpl; [done|].
  rewrite IH. simpl. by destruct (is_digit c), (all_digits a), (all_digits acc).
Qed.

Lemma rev_str_nonempty (a acc : string) :
  acc ≠ EmptyString → rev_str a acc ≠ EmptyString.
Proof.
  revert acc. induction a as [|c a IH]; intros acc Hacc; simpl; [done|].
  by apply IH.
Qed.

Lemma digit_char (k : Z) :
  0 <= k < 10 → is_digit (ascii_of_nat (48 + Z.to_nat k)) = true.
Proof.
  intros Hk. unfold is_digit.
  rewrite Ascii.nat_ascii_embedding by lia.
  apply andb_true_intro. split; apply Nat.leb_le; lia.
Qed.

Lemma dec_fuel_digits (fuel : nat) (n : Z) (acc : string) :
  all_digits acc = true → all_digits (dec_fuel fuel n acc) = true.
Proof.
  revert n acc. induction fuel as [|f IH]; intros n acc Hacc; cbn [dec_fuel]; [done|].
  assert (Hd : is_digit (ascii_of_nat (48 + Z.to_nat (n mod 10))) = true)
    by (apply digit_char; apply Z.mod_pos_bound; lia).
  set (d := ascii_of_nat _) in *.
  destruct (Z.ltb n 10); [cbn [all_digits]; by rewrite Hd, Hacc|].
  apply IH. cbn [all_digits]. by rewrite Hd, Hacc.
Qed.

Lemma dec_fuel_head (fuel : nat) (n : Z) (acc : string) :
  ∃ c r, dec_fuel (S fuel) n acc = String c r ∧ is_digit c = true.
Proof.
  revert n acc. induction fuel as [|f IH]; intros n acc.
  - cbn [dec_fuel].
    assert (Hd : is_digit (ascii_of_nat (48 + Z.to_nat (n mod 10))) = true)
      by (apply digit_char; apply Z.mod_pos_bound; lia).
    set (d := ascii_of_nat _) in *.
    destruct (Z.ltb n 10); eauto.
  - cbn [dec_fuel].
    assert (Hd : is_digit (ascii_of_nat (48 + Z.to_nat (n mod 10))) = true)
      by (apply digit_char; apply Z.mod_pos_bound; lia).
    set (d := ascii_of_nat _) in *.
    destruct (Z.ltb n 10); [eauto|].
    apply IH.
Qed.

Lemma two_digits_digits (r : Z) :
  0 <= r < 100 →
  ∃ a b, two_digits r = String a (String b EmptyString) ∧
         is_digit a = true ∧ is_digit b = true.
Proof.
  intros Hr. eexists _, _. split; [reflexivity|]. split.
  - apply digit_char. split; [apply Z.div_pos; lia|].
    apply Z.div_lt_upper_bound; lia.
  - apply digit_char, Z.mod_pos_bound; lia.
Qed.

Lemma scaled_cents_nonneg (m : positive) (e : Z) : 0 <= scaled_cents m e.
Proof.
  unfold scaled_cents. destruct (Z.leb 0 e) eqn:He.
  - apply Z.mul_nonneg_nonneg; [|lia]. apply Z.mul_nonneg_nonneg; [lia|].
    apply Z.pow_nonneg; lia.
  - assert (0 <= Z.pos m * 100 / 2 ^ (- e)).
    { apply Z.leb_gt in He.
      apply Z.div_pos; [lia|]. apply Z.pow_pos_nonneg; lia. }
    destruct (_ || _); lia.
Qed.

(** Every finite value (zero included) is printed by [f"{x:.2f}"] with
    exactly two decimal places. *)
Lemma format_2f_finite (x : pyfloat) :
  is_finite x = true → two_decimals (format_2f x) = true.
Proof.
  destruct x as [s|s| |s m e]; cbn [is_finite]; try discriminate; intros _.
  - by destruct s.
  - set (c := scaled_cents m e).
    destruct (two_digits_digits (c mod 100)) as (a & b & Htw & Ha & Hb).
    { apply Z.mod_pos_bound; lia. }
    unfold format_2f. fold c. rewrite Htw. unfold dec.
    destruct (dec_fuel_head (Z.to_nat (Z.log2 (Z.max (c / 100) 1))) (c / 100) "")
      as (h & r & Hdec & Hh).
    assert (Hall : all_digits (String h r) = true).
    { rewrite <- Hdec. by apply dec_fuel_digits. }
    rewrite Hdec.
    assert (Hbody : ∀ t, (if s then "-" else "") ++ String h r ++ t =
                         if s then String "-" (String h r ++ t) else String h r ++ t)
      by (destruct s; reflexivity).
    assert (Hhne : Ascii.eqb h "-" = false).
    { apply Ascii.eqb_neq. intros ->. discriminate Hh. }
    unfold two_decimals. rewrite Hbody.
    assert (Hrev : rev_str (String h r ++ "." ++ String a (String b EmptyString)) EmptyString
                   = String b (String a (String "." (rev_str (String h r) EmptyString)))).
    { by rewrite rev_str_app. }
    assert (Hne : truthy (rev_str (String h r) EmptyString) = true).
    { unfold truthy. apply negb_true_iff, String.eqb_neq.
      simpl. by apply rev_str_nonempty. }
    assert (Hd : all_digits (rev_str (String h r) EmptyString) = true).
    { by rewrite all_digits_rev_str, Hall. }
    destruct s.
    + rewrite Ascii.eqb_refl, Hrev. cbv iota.
      rewrite Ascii.eqb_refl, Ha, Hb, Hne, Hd. reflexivity.
    + change (String h r ++ ?t) with (String h (r ++ t)). cbv iota.
      rewrite Hhne. change (String h (r ++ ?t)) with (String h r ++ t).
      rewrite Hrev. cbv iota.
      rewrite Ascii.eqb_refl, Ha, Hb, Hne, Hd. reflexivity.
Qed.

End FormatFacts.

(* ================================================================== *)
(** * Properties of the reconciler *)

Module ReconcileFacts.

Import PyStr PyStrFacts PyFloat Reconcile SpecNotions.

(** ** Dict updates *)

Lemma set_if_ne (c : bool) (k k' v : string) (row : dict) :
  k ≠ k' → set_if c k v row !! k' = row !! k'.
Proof. intros Hne. destruct c; simpl; [by rewrite lookup_insert_ne | done]. Qed.

Lemma set_if_true (k v : string) (row : dict) :
  set_if true k v row !! k = Some v.
Proof. simpl. by rewrite lookup_insert_eq. Qed.


Lemma init_row_lookup (hs : list string) (m : dict) (k : string) :
  foldl (fun r h => <[h := ""]> r) m hs !! k =
  if list_in k hs then Some "" else m !! k.
Proof.
  revert m. induction hs as [|h hs IH]; intros m; simpl; [done|].
  rewrite IH. unfold list_in in *. simpl.
  destruct (existsb (String.eqb k) hs) eqn:E; rewrite ?orb_true_r; [done|].
  rewrite orb_false_r. destruct (String.eqb k h) eqn:Ek.
  - apply String.eqb_eq in Ek. subst. by rewrite lookup_insert_eq.
  - apply String.eqb_neq in Ek. by rewrite lookup_insert_ne.
Qed.

Lemma action_col_in (hs : list string) (a : string) :
  action_col hs = Some a → list_in a hs = true.
Proof.
  induction hs as [|h hs IH]; simpl; [discriminate|].
  destruct (startswith h "*Action(") eqn:E.
  - intros [= <-]. unfold list_in. simpl. by rewrite String.eqb_refl.
  - intros Ha. unfold list_in in *. simpl. rewrite IH by done. apply orb_true_r.
Qed.

Lemma startswith_ne (h k p : string) :
  startswith h p = true → startswith k p = false → h ≠ k.
Proof. intros H1 H2 ->. congruence. Qed.

Lemma put_scraped_specifics_other (headers : list string) (sp row : dict) (k : string) :
  startswith k "C:" = false →
  put_scraped_specifics headers sp row !! k = row !! k.
Proof.
  intros Hk. unfold put_scraped_specifics. revert row.
  induction headers as [|h hs IH]; intros row; simpl; [done|].
  rewrite IH. unfold scraped_specific_step.
  destruct (startswith h "C:") eqn:Eh; [|done].
  destruct (sp !! _); [|done].
  apply set_if_ne. by eapply startswith_ne.
Qed.

(** Destructs a hypothesis [k ∉ [k1; ...; kn]] into [k ≠ ki]. *)
Ltac not_in_list H :=
  repeat (rewrite not_elem_of_cons in H; let H' := fresh "Hne" in destruct H as [H' H]).

Ltac set_if_away :=
  repeat first
    [ rewrite set_if_ne by (first [done | congruence | discriminate])
    | rewrite lookup_insert_ne by (first [done | congruence | discriminate]) ].

Lemma finish_row_other headers seed price imgs sp (row : dict) (k : string) :
  startswith k "C:" = false → k ∉ finish_keys →
  finish_row headers seed price imgs sp row !! k = row !! k.
Proof.
  intros Hc Hk. unfold finish_keys in Hk. not_in_list Hk.
  unfold finish_row. rewrite put_scraped_specifics_other by done.
  unfold put_seed_specifics, specifics_map. simpl.
  destruct (price_val seed price); destruct (String.eqb (ship_type seed) "Flat");
    set_if_away; done.
Qed.

(** The output list is the final dict read at each header. *)
Lemma build_output_row_at headers seed t d price cat cond imgs sp out i h :
  build_output_row headers seed t d price cat cond imgs sp = Ok out →
  headers !! i = Some h →
  ∃ row, build_row headers seed t d price cat cond imgs sp = Ok row ∧
         out !! i = Some (get row h "").
Proof.
  unfold build_output_row. destruct (build_row _ _ _ _ _ _ _ _ _) as [row|e];
    [|discriminate].
  intros [= <-] Hi. exists row. split; [done|].
  by rewrite list_lookup_fmap, Hi.
Qed.

(** Unfolds [build_row] in a hypothesis [build_row ... = Ok row] down to
    the [finish_row] call, leaving the [*Duration] case split. *)
Ltac unfold_build_row H :=
  unfold build_row in H;
  destruct (list_in "*Duration" _) eqn:?;
  [ destruct (start_row _ _ _ _ _ !! "*Format") eqn:?; [|discriminate] | ];
  injection H as <-.

Lemma start_row_format_none headers seed t d cat :
  list_in "*Format" headers = false →
  start_row headers seed t d cat !! "*Format" = None.
Proof.
  intros Hf. unfold start_row. rewrite Hf. simpl.
  set_if_away.
  destruct (action_col headers) as [a|] eqn:Ea.
  - destruct (truthy a).
    + apply action_col_in in Ea.
      rewrite lookup_insert_ne by congruence.
      by rewrite init_row_lookup, Hf.
    + by rewrite init_row_lookup, Hf.
  - by rewrite init_row_lookup, Hf.
Qed.

Lemma start_row_format_some headers seed t d cat :
  list_in "*Format" headers = true →
  start_row headers seed t d cat !! "*Format" =
  Some (get seed "FormatOverride" DEFAULT_Format).
Proof. intros Hf. unfold start_row. rewrite Hf. simpl. by rewrite lookup_insert_eq. Qed.

Lemma start_row_condition headers seed t d cat :
  list_in "*ConditionID" headers = true →
  start_row headers seed t d cat !! "*ConditionID" = Some (str_Z (cond_id seed)).
Proof.
  intros Hc. unfold start_row. rewrite Hc. set_if_away. simpl.
  by rewrite lookup_insert_eq.
Qed.

Ltac not_in_literals :=
  repeat (apply not_elem_of_cons; split; [discriminate|]); apply not_elem_of_nil.

Lemma action_col_prefix (hs : list string) (a : string) :
  action_col hs = Some a → startswith a "*Action(" = true.
Proof.
  induction hs as [|h hs IH]; simpl; [discriminate|].
  destruct (startswith h "*Action(") eqn:E; [by intros [= <-]|done].
Qed.

(** A header that [start_row] does not write explicitly holds [""]. *)
Lemma start_row_other headers seed t d cat (k : string) :
  startswith k "*Action(" = false →
  k ∉ ["CustomLabel"; "*Category"; "*Title"; "Subtitle"; "*ConditionID";
       "*Description"; "*Format"] →
  list_in k headers = true →
  start_row headers seed t d cat !! k = Some "".
Proof.
  intros Ha Hk Hin. not_in_list Hk. unfold start_row. set_if_away.
  destruct (action_col headers) as [a|] eqn:Ea.
  - assert (a ≠ k) by (eapply startswith_ne; [exact (action_col_prefix _ _ Ea)|done]).
    destruct (truthy a); set_if_away; by rewrite init_row_lookup, Hin.
  - by rewrite init_row_lookup, Hin.
Qed.

Lemma finish_row_start_price headers seed price imgs sp (row : dict) :
  list_in "*StartPrice" headers = true →
  finish_row headers seed price imgs sp row !! "*StartPrice" =
  match price_val seed price with
  | Some p => Some (format_2f p)
  | None => row !! "*StartPrice"
  end.
Proof.
  intros Hin. unfold finish_row. rewrite put_scraped_specifics_other by done.
  unfold put_seed_specifics, specifics_map. simpl.
  destruct (price_val seed price); destruct (String.eqb (ship_type seed) "Flat");
    set_if_away; rewrite ?Hin; try done; by rewrite set_if_true.
Qed.

Lemma normalize_price_spec (val : option string) (scraped : option pyfloat) :
  normalize_price val scraped =
  match val with
  | Some v => match py_float v with Some f => Some f | None => scraped end
  | None => scraped
  end.
Proof.
  destruct val as [v|]; [|done]. unfold normalize_price.
  destruct (truthy v) eqn:Hv; [done|].
  unfold truthy in Hv. apply negb_false_iff, String.eqb_eq in Hv. by subst.
Qed.

(** The reconciler raises only when the schema has [*Duration] and
    lacks [*Format]. *)
Lemma build_output_row_total headers seed t d price cat cond imgs sp :
  list_in "*Duration" headers = false ∨ list_in "*Format" headers = true →
  ∃ out, build_output_row headers seed t d price cat cond imgs sp = Ok out.
Proof.
  intros Hs. unfold build_output_row, build_row.
  destruct (list_in "*Duration" headers) eqn:Ed.
  - destruct Hs as [Hs|Hs]; [discriminate|].
    rewrite start_row_format_some by done. eauto.
  - eauto.
Qed.

End ReconcileFacts.

(* ================================================================== *)
(** * More facts about the reconciler's columns *)

Module ReconcileMoreFacts.

Import PyStr PyStrFacts PyFloat Reconcile SpecNotions ReconcileFacts.

Local Open Scope string_scope.

(** The key a [C:] header is looked up under. *)
Definition ckey (h : string) : string := strip (replace h "C:" "").

Lemma put_scraped_specifics_at (headers : list string) (sp row : dict) (h : string) :
  startswith h "C:" = true →
  put_scraped_specifics headers sp row !! h =
  if list_in h headers
  then match sp !! ckey h with
       | Some v => if truthy v then Some v else row !! h
       | None => row !! h
       end
  else row !! h.
Proof.
  intros Hh. unfold put_scraped_specifics. revert row.
  induction headers as [|h0 hs IH]; intros row; simpl; [done|].
  rewrite IH. unfold list_in. simpl. fold (list_in h hs).
  destruct (String.eqb_spec h h0) as [<-|Hne].
  - unfold scraped_specific_step. rewrite Hh. fold (ckey h). simpl.
    destruct (list_in h hs);
      destruct (sp !! ckey h) as [v|]; try done;
      destruct (truthy v) eqn:Hv; simpl; rewrite ?lookup_insert_eq; done.
  - simpl. unfold scraped_specific_step.
    assert (Hstep : (if startswith h0 "C:"
                     then match sp !! strip (replace h0 "C:" "") with
                          | Some v => set_if (truthy v) h0 v row
                          | None => row
                          end
                     else row) !! h = row !! h).
    { repeat case_match; try done; apply set_if_ne; congruence. }
    rewrite Hstep. done.
Qed.

(** Cells of the row after [build_output_row]: the value of every
    header other than [*Duration] is read in [finish_row] applied to a
    row that agrees with [start_row] on it. *)
Lemma build_output_row_cell headers seed t d price cat cond imgs sp out i h :
  build_output_row headers seed t d price cat cond imgs sp = Ok out →
  headers !! i = Some h → h ≠ "*Duration" →
  ∃ row0, row0 !! h = start_row headers seed t d cat !! h ∧
          out !! i = Some (get (finish_row headers seed price imgs sp row0) h "").
Proof.
  intros Hout Hi Hd.
  destruct (build_output_row_at _ _ _ _ _ _ _ _ _ _ _ _ Hout Hi) as (row & Hrow & ->).
  unfold_build_row Hrow.
  - eexists. split; [|reflexivity]. by rewrite lookup_insert_ne by congruence.
  - eexists. split; [|reflexivity]. done.
Qed.

Ltac finish_row_go Hin :=
  unfold finish_row; rewrite ?put_scraped_specifics_other by done;
  unfold put_seed_specifics, specifics_map; simpl;
  destruct (price_val _ _); destruct (String.eqb (ship_type _) "Flat");
  set_if_away; rewrite ?Hin; try done; by rewrite set_if_true.

Lemma finish_row_plain headers seed price imgs sp (row : dict) (k v : string) :
  (k, v) ∈ [("*Quantity", qty seed); ("PictureURL", picture_url seed imgs);
            ("ShippingType", ship_type seed);
            ("*Location", or_str (get seed "LocationOverride" "") DEFAULT_Location);
            ("*ReturnsAcceptedOption", "ReturnsAccepted");
            ("ShippingCostPaidByOption", get seed "PostagePaidBy" "Buyer")] →
  list_in k headers = true →
  finish_row headers seed price imgs sp row !! k = Some v.
Proof.
  intros Hkv Hin.
  repeat (apply elem_of_cons in Hkv as [Hkv|Hkv];
          [injection Hkv as -> ->; finish_row_go Hin|]).
  by apply not_elem_of_nil in Hkv.
Qed.

Lemma finish_row_service headers seed price imgs sp (row : dict) (k v : string) :
  (k, v) ∈ [("ShippingService-1:Option",
             or_str (get seed "FlatService" "") (get seed "ShippingService1_Option" ""));
            ("ShippingService-1:Cost",
             or_str (get seed "FlatCost" "") (get seed "ShippingService1_Cost" ""))] →
  list_in k headers = true →
  finish_row headers seed price imgs sp row !! k =
  if String.eqb (ship_type seed) "Flat" then Some v else row !! k.
Proof.
  intros Hkv Hin.
  repeat (apply elem_of_cons in Hkv as [Hkv|Hkv];
          [injection Hkv as -> ->;
           unfold finish_row; rewrite ?put_scraped_specifics_other by done;
           unfold put_seed_specifics, specifics_map; simpl;
           destruct (price_val _ _); destruct (String.eqb (ship_type _) "Flat");
           set_if_away; rewrite ?Hin; try done; by rewrite set_if_true|]).
  by apply not_elem_of_nil in Hkv.
Qed.

Lemma finish_row_seed_specific headers seed price imgs sp (row : dict) (k f : string) :
  (k, f) ∈ [("CD:Professional Grader - (ID: 27501)", "ProfessionalGrader");
            ("CD:Grade - (ID: 27502)", "Grade");
            ("CDA:Certification Number - (ID: 27503)", "CertNumber")] →
  list_in k headers = true →
  finish_row headers seed price imgs sp row !! k =
  if truthy (get seed f "") then Some (get seed f "") else row !! k.
Proof.
  intros Hkv Hin.
  repeat (apply elem_of_cons in Hkv as [Hkv|Hkv];
          [injection Hkv as -> ->;
           unfold finish_row; rewrite ?put_scraped_specifics_other by done;
           unfold put_seed_specifics, specifics_map; simpl; set_if_away;
           rewrite Hin; simpl;
           destruct (truthy (get seed _ "")); [by rewrite set_if_true|]; simpl;
           destruct (price_val _ _); destruct (String.eqb (ship_type _) "Flat");
           set_if_away; done|]).
  by apply not_elem_of_nil in Hkv.
Qed.

Lemma start_row_plain headers seed t d cat (k v : string) :
  (k, v) ∈ [("*Category", or_str cat ""); ("*Title", t); ("Subtitle", "");
            ("*Description", d)] →
  list_in k headers = true →
  start_row headers seed t d cat !! k = Some v.
Proof.
  intros Hkv Hin.
  repeat (apply elem_of_cons in Hkv as [Hkv|Hkv];
          [injection Hkv as -> ->; unfold start_row; set_if_away;
           rewrite Hin; by rewrite set_if_true|]).
  by apply not_elem_of_nil in Hkv.
Qed.

Lemma start_row_custom_label headers seed t d cat :
  start_row headers seed t d cat !! "CustomLabel" = Some (get seed "CustomLabel" "").
Proof. unfold start_row. set_if_away. by rewrite lookup_insert_eq. Qed.

Lemma start_row_action headers seed t d cat (h : string) :
  startswith h "*Action(" = true → list_in h headers = true →
  start_row headers seed t d cat !! h =
  Some (if bool_decide (action_col headers = Some h) then "Add" else "").
Proof.
  intros Ha Hin. unfold start_row.
  assert (Hne : ∀ k, startswith k "*Action(" = false → k ≠ h)
    by (intros k Hk ->; congruence).
  repeat first [ rewrite set_if_ne by (apply Hne; reflexivity)
               | rewrite lookup_insert_ne by (apply Hne; reflexivity) ].
  destruct (action_col headers) as [a|] eqn:Ea.
  - pose proof (action_col_in _ _ Ea) as Hain.
    assert (Hta : truthy a = true).
    { unfold truthy. apply negb_true_iff, String.eqb_neq. intros ->.
      apply action_col_prefix in Ea. discriminate. }
    rewrite Hta. destruct (String.eq_dec a h) as [->|Hah].
    + rewrite lookup_insert_eq. by rewrite bool_decide_true.
    + rewrite lookup_insert_ne by done. rewrite init_row_lookup, Hin.
      rewrite bool_decide_false; [done|]. congruence.
  - rewrite init_row_lookup, Hin. by rewrite bool_decide_false.
Qed.

Lemma headers_lookup_in (headers : list string) (i : nat) (h : string) :
  headers !! i = Some h → list_in h headers = true.
Proof. intros Hi. apply list_in_true. by eapply list_elem_of_lookup_2. Qed.

Lemma action_not_c (h : string) : startswith h "*Action(" = true → startswith h "C:" = false.
Proof.
  unfold startswith. intros H. destruct h as [|c r]; [discriminate|].
  cbn [String.prefix] in *.
  destruct (ascii_dec "*" c) as [<-|]; [reflexivity|discriminate].
Qed.

Lemma put_seed_specifics_c headers seed (r : dict) (h : string) :
  startswith h "C:" = true → list_in h headers = true →
  put_seed_specifics headers seed r !! h =
  if String.eqb h "C:Card Condition" && truthy (get seed "CardCondition" "")
  then Some (get seed "CardCondition" "") else r !! h.
Proof.
  intros Hc Hin. unfold put_seed_specifics, specifics_map. simpl.
  assert (Hne : ∀ k, startswith k "C:" = false → k ≠ h) by (intros k Hk ->; congruence).
  repeat first [ rewrite set_if_ne by (apply Hne; reflexivity) ].
  destruct (String.eqb_spec h "C:Card Condition") as [->|Hcc].
  - rewrite Hin. simpl. destruct (truthy _); [by rewrite set_if_true|done].
  - rewrite set_if_ne by congruence. done.
Qed.

Lemma finish_row_c headers seed price imgs sp (row : dict) (h : string) :
  startswith h "C:" = true → list_in h headers = true →
  finish_row headers seed price imgs sp row !! h =
  let base := if String.eqb h "C:Card Condition" && truthy (get seed "CardCondition" "")
              then Some (get seed "CardCondition" "") else row !! h in
  match sp !! ckey h with
  | Some v => if truthy v then Some v else base
  | None => base
  end.
Proof.
  intros Hc Hin. unfold finish_row. rewrite put_scraped_specifics_at, Hin by done.
  rewrite put_seed_specifics_c by done.
  assert (Hne : ∀ k, startswith k "C:" = false → k ≠ h) by (intros k Hk ->; congruence).
  destruct (price_val seed price); destruct (String.eqb (ship_type seed) "Flat");
    repeat first [ rewrite set_if_ne by (apply Hne; reflexivity) ]; done.
Qed.

End ReconcileMoreFacts.

(* ================================================================== *)
(** * The claims about the reconciler *)

Module ReconcileClaims.

Import PyStr PyStrFacts PyFloat Reconcile SpecNotions ReconcileFacts ReconcileMoreFacts.

(** ** C1 *)

(** C1 (code_bug): reconciliation is not total.  For every schema that
    lists [*Duration] but not [*Format], [build_output_row] raises
    [KeyError('*Format')] at [row["*Format"]], whatever the seed row and
    scraped listing; by [build_output_row_total] this is its only
    failure. *)
Theorem duration_without_format_raises headers seed t d price cat cond imgs sp :
  list_in "*Duration" headers = true →
  list_in "*Format" headers = false →
  build_output_row headers seed t d price cat cond imgs sp = Raise (KeyError "*Format").
Proof.
  intros Hd Hf. unfold build_output_row, build_row. rewrite Hd.
  by rewrite start_row_format_none.
Qed.

Lemma duration_without_format_raises_witness :
  list_in "*Duration" ["*Title"; "*Duration"] = true ∧
  list_in "*Format" ["*Title"; "*Duration"] = false ∧
  build_output_row ["*Title"; "*Duration"] ∅ "Widget" "" None "" "" [] ∅
  = Raise (KeyError "*Format").
Proof.
  split; [reflexivity|]. split; [reflexivity|].
  apply duration_without_format_raises; reflexivity.
Defined.

(** ** C2 *)

(** C2 (code_bug): the scraped item specifics overwrite a value the
    seed row placed in a [C:] column: with the seed's [CardCondition]
    "Near Mint" and a scraped "Card Condition" of "Excellent", the
    [C:Card Condition] column holds "Excellent". *)
Theorem scraped_specific_overwrites_seed :
  build_output_row ["C:Card Condition"] {[ "CardCondition" := "Near Mint" ]}
    "" "" None "" "" [] {[ "Card Condition" := "Excellent" ]}
  = Ok ["Excellent"].
Proof. reflexivity. Qed.

(** ** C3 *)

(** C3 (code_bug): a seed row whose [FormatOverride] column is present
    but empty yields an empty [*Format] (not "FixedPrice"), and then the
    auction duration "Days_7" (not "GTC"). *)
Theorem empty_format_override_row :
  build_output_row ["*Format"; "*Duration"] {[ "FormatOverride" := "" ]}
    "" "" None "" "" [] ∅
  = Ok [""; "Days_7"].
Proof. reflexivity. Qed.

(** ** C4 *)

(** C4: whenever the reconciler returns a row, every [*ConditionID]
    column holds the id of the seed's condition override (the stripped
    [Condition], else the stripped [ConditionOverride]): 1000 for "New",
    1500 for "New (Other)", 3000 for "Used" and for any other value,
    the empty one included. *)
Theorem condition_id_column headers seed t d price cat cond imgs sp out i :
  build_output_row headers seed t d price cat cond imgs sp = Ok out →
  headers !! i = Some "*ConditionID" →
  out !! i = Some (let c := cond_override seed in
                   if String.eqb c "New" then "1000"
                   else if String.eqb c "New (Other)" then "1500"
                   else "3000").
Proof.
  intros Hout Hi.
  destruct (build_output_row_at _ _ _ _ _ _ _ _ _ _ _ _ Hout Hi) as (row & Hrow & ->).
  assert (Hin : list_in "*ConditionID" headers = true).
  { apply list_in_true. by eapply list_elem_of_lookup_2. }
  unfold_build_row Hrow; unfold get;
    rewrite finish_row_other by (reflexivity || not_in_literals);
    rewrite ?lookup_insert_ne by discriminate;
    rewrite start_row_condition by done; simpl;
    unfold cond_id, CONDITION_MAP;
    destruct (String.eqb (cond_override seed) "New"),
      (String.eqb (cond_override seed) "New (Other)"),
      (String.eqb (cond_override seed) "Used"); reflexivity.
Qed.

Lemma condition_id_column_witness :
  build_output_row ["*ConditionID"] {[ "Condition" := "New (Other)" ]}
    "" "" None "" "" [] ∅ = Ok ["1500"] ∧
  ["1500"] !! 0%nat = Some "1500".
Proof.
  split; [reflexivity|].
  etransitivity.
  - apply (condition_id_column ["*ConditionID"] {[ "Condition" := "New (Other)" ]}
             "" "" None "" "" [] ∅ ["1500"] 0); reflexivity.
  - reflexivity.
Defined.

(** ** C6 *)

(** C6: the scenario of the spec.  Seed row [{URL: "http://x/1",
    Condition: "New", Quantity: "2"}], scraped title "Widget", price
    10.0, images ["http://img/1.jpg"], the other scraped fields empty. *)
Theorem scenario_output_row :
  build_output_row
    ["*Action(SiteID=...)"; "CustomLabel"; "*Title"; "*ConditionID";
     "*StartPrice"; "*Quantity"; "PictureURL"]
    {[ "URL" := "http://x/1"; "Condition" := "New"; "Quantity" := "2" ]}
    "Widget" "" (py_float "10.0") "" "" ["http://img/1.jpg"] ∅
  = Ok ["Add"; ""; "Widget"; "1000"; "10.00"; "2"; "http://img/1.jpg"].
Proof. vm_compute. reflexivity. Qed.

(** ** C5 *)

(** C5 (counterexample): the seed price override "1e400" is accepted by
    [float()], which returns infinity, and the [*StartPrice] column then
    holds "inf", which does not have two decimal places. *)
Lemma start_price_overflow :
  py_float "1e400" = Some (S754_infinity false) ∧
  build_output_row ["*StartPrice"] {[ "Price" := "1e400" ]} "" "" None "" "" [] ∅
  = Ok ["inf"] ∧
  two_decimals "inf" = false.
Proof. vm_compute. auto. Qed.

(** C5 (amended): whenever the reconciler returns a row, every
    [*StartPrice] column holds [f"{price_val:.2f}"], or stays empty
    when [price_val] is [None]; [price_val] is the parsed seed override
    ([Price], else [PriceOverride]) when [float()] accepts it, and the
    scraped price otherwise; a finite [price_val] is written with
    exactly two decimal places. *)
Theorem start_price_column headers seed t d price cat cond imgs sp out i :
  build_output_row headers seed t d price cat cond imgs sp = Ok out →
  headers !! i = Some "*StartPrice" →
  out !! i = Some (match price_val seed price with
                   | Some p => format_2f p
                   | None => ""
                   end) ∧
  price_val seed price = match price_override seed with
                         | Some v => match py_float v with
                                     | Some f => Some f
                                     | None => price
                                     end
                         | None => price
                         end ∧
  (∀ p, price_val seed price = Some p → is_finite p = true →
        two_decimals (format_2f p) = true).
Proof.
  intros Hout Hi. split; [|split].
  - destruct (build_output_row_at _ _ _ _ _ _ _ _ _ _ _ _ Hout Hi) as (row & Hrow & ->).
    assert (Hin : list_in "*StartPrice" headers = true).
    { apply list_in_true. by eapply list_elem_of_lookup_2. }
    unfold_build_row Hrow; unfold get; rewrite finish_row_start_price by done;
      destruct (price_val seed price); try done;
      rewrite ?lookup_insert_ne by discriminate;
      rewrite start_row_other by (reflexivity || not_in_literals || done); done.
  - apply normalize_price_spec.
  - intros p _. apply FormatFacts.format_2f_finite.
Qed.

Lemma start_price_column_witness :
  build_output_row ["*StartPrice"] {[ "PriceOverride" := "19.99" ]} "" ""
    (py_float "25.00") "" "" [] ∅ = Ok ["19.99"] ∧
  ["19.99"] !! 0%nat = Some "19.99".
Proof.
  split; [vm_compute; reflexivity|].
  etransitivity.
  - apply (start_price_column ["*StartPrice"] {[ "PriceOverride" := "19.99" ]} "" ""
             (py_float "25.00") "" "" [] ∅ ["19.99"] 0); vm_compute; reflexivity.
  - vm_compute. reflexivity.
Defined.

(** ** C10 *)

(** C10 (counterexample): a whitespace-only [Condition] is non-empty,
    yet the reconciler uses [ConditionOverride]: [" "] would map to
    3000, the row holds 1000. *)
Lemma blank_condition_defers_to_override :
  cond_override {[ "Condition" := " "; "ConditionOverride" := "New" ]} = "New" ∧
  build_output_row ["*ConditionID"] {[ "Condition" := " "; "ConditionOverride" := "New" ]}
    "" "" None "" "" [] ∅ = Ok ["1000"].
Proof. split; reflexivity. Qed.

(** C10 (amended): whenever the reconciler returns a row, [Price]
    takes precedence over [PriceOverride] and [Quantity] over
    [QuantityOverride] when the plain value is non-empty: the
    [*StartPrice] column is the one of the [Price] value, and the
    [*Quantity] column holds the [Quantity] value.  [Condition] takes
    precedence over [ConditionOverride] and [ShippingType] over
    [ShippingTypeOverride] when the plain value is non-empty once
    stripped, and the stripped value is used; a whitespace-only plain
    value defers to its Override column: the [*ConditionID] column is
    the id of the stripped [Condition], else of the stripped
    [ConditionOverride], and the [ShippingType] column holds the
    stripped [ShippingType], else the stripped [ShippingTypeOverride],
    else "Flat". *)
Theorem plain_column_precedence headers seed t d price cat cond imgs sp out i h :
  build_output_row headers seed t d price cat cond imgs sp = Ok out →
  headers !! i = Some h →
  (h = "*StartPrice" → ∀ p, seed !! "Price" = Some p → truthy p = true →
   out !! i = Some (match normalize_price (Some p) price with
                    | Some x => format_2f x
                    | None => ""
                    end)) ∧
  (h = "*Quantity" → ∀ q, seed !! "Quantity" = Some q → truthy q = true →
   out !! i = Some q) ∧
  (h = "*ConditionID" →
   let c := strip (get seed "Condition" "") in
   let co := strip (get seed "ConditionOverride" "") in
   out !! i = Some (str_Z (match CONDITION_MAP (if truthy c then c else co) with
                           | Some n => n
                           | None => 3000%Z
                           end))) ∧
  (h = "ShippingType" →
   let st := strip (get seed "ShippingType" "") in
   let sto := strip (get seed "ShippingTypeOverride" "") in
   out !! i = Some (if truthy st then st else if truthy sto then sto else "Flat")).
Proof.
  intros Hout Hi.
  assert (Hin : list_in h headers = true).
  { apply list_in_true. by eapply list_elem_of_lookup_2. }
  split; [|split; [|split]].
  - intros -> p Hp Ht.
    destruct (build_output_row_at _ _ _ _ _ _ _ _ _ _ _ _ Hout Hi) as (row & Hrow & ->).
    assert (Hpv : price_val seed price = normalize_price (Some p) price).
    { unfold price_val, price_override, or_opt. by rewrite Hp, Ht. }
    unfold_build_row Hrow; unfold get; rewrite finish_row_start_price by done;
      rewrite Hpv; destruct (normalize_price (Some p) price); try done;
      rewrite ?lookup_insert_ne by discriminate;
      rewrite start_row_other by (reflexivity || not_in_literals || done); done.
  - intros -> q Hq Ht.
    destruct (build_output_row_cell _ _ _ _ _ _ _ _ _ _ _ _ Hout Hi) as (row0 & _ & ->);
      [discriminate|].
    unfold get. rewrite (finish_row_plain _ _ _ _ _ _ "*Quantity" (qty seed)); [|by left|done].
    unfold qty, or_opt. rewrite Hq, Ht. simpl. by rewrite Ht.
  - intros ->. cbv zeta.
    destruct (build_output_row_at _ _ _ _ _ _ _ _ _ _ _ _ Hout Hi) as (row & Hrow & ->).
    unfold_build_row Hrow; unfold get;
      rewrite finish_row_other by (reflexivity || not_in_literals);
      rewrite ?lookup_insert_ne by discriminate;
      rewrite start_row_condition by done; reflexivity.
  - intros ->. cbv zeta.
    destruct (build_output_row_cell _ _ _ _ _ _ _ _ _ _ _ _ Hout Hi) as (row0 & _ & ->);
      [discriminate|].
    unfold get. rewrite (finish_row_plain _ _ _ _ _ _ "ShippingType" (ship_type seed));
      [|by right; right; left|done].
    unfold ship_type, or_str, get, DEFAULT_ShippingType.
    destruct (truthy (strip (default "" (seed !! "ShippingType")))) eqn:Hst; cbv iota;
      [by rewrite Hst|reflexivity].
Qed.

Lemma plain_column_precedence_witness :
  let seed : dict := {[ "Price" := "5"; "PriceOverride" := "7";
                        "Quantity" := "3"; "QuantityOverride" := "4";
                        "Condition" := " "; "ConditionOverride" := "New";
                        "ShippingType" := "Calculated";
                        "ShippingTypeOverride" := "Flat" ]} in
  let hs := ["*StartPrice"; "*Quantity"; "*ConditionID"; "ShippingType"] in
  build_output_row hs seed "" "" None "" "" [] ∅ = Ok ["5.00"; "3"; "1000"; "Calculated"] ∧
  ["5.00"; "3"; "1000"; "Calculated"] !! 0%nat = Some "5.00" ∧
  ["5.00"; "3"; "1000"; "Calculated"] !! 1%nat = Some "3" ∧
  ["5.00"; "3"; "1000"; "Calculated"] !! 2%nat = Some "1000" ∧
  ["5.00"; "3"; "1000"; "Calculated"] !! 3%nat = Some "Calculated".
Proof.
  intros seed hs.
  assert (Hb : build_output_row hs seed "" "" None "" "" [] ∅ = Ok ["5.00"; "3"; "1000"; "Calculated"])
    by (vm_compute; reflexivity).
  split; [exact Hb|].
  split.
  { etransitivity.
    - apply (proj1 (plain_column_precedence hs seed "" "" None "" "" [] ∅ _ 0 "*StartPrice"
                      Hb eq_refl) eq_refl "5"); reflexivity.
    - vm_compute. reflexivity. }
  split.
  { apply (proj1 (proj2 (plain_column_precedence hs seed "" "" None "" "" [] ∅ _ 1 "*Quantity"
                             Hb eq_refl)) eq_refl "3"); reflexivity. }
  split.
  { etransitivity.
    - apply (proj1 (proj2 (proj2 (plain_column_precedence hs seed "" "" None "" "" [] ∅ _ 2
                                    "*ConditionID" Hb eq_refl))) eq_refl).
    - vm_compute. reflexivity. }
  etransitivity.
  - apply (proj2 (proj2 (proj2 (plain_column_precedence hs seed "" "" None "" "" [] ∅ _ 3
                                  "ShippingType" Hb eq_refl))) eq_refl).
  - vm_compute. reflexivity.
Defined.

End ReconcileClaims.

(* ================================================================== *)
(** * The rewriter *)

Module RewriterClaims.

Import PyStr Reconcile Rewriter Main.

Lemma substring0_length (n : nat) (s : string) :
  (String.length (substring 0 n s) ≤ n)%nat.
Proof.
  revert n. induction s as [|c s IH]; intros [|n]; simpl; try lia.
  specialize (IH n). lia.
Qed.

(** [openai_optimize] returns [text] unchanged when the [openai]
    package is missing or [OPENAI_API_KEY] is unset or empty, and, once
    the client [OpenAI(api_key=...)] is built without raising
    ([client_raises E = false]), whenever the completion call or the
    read of its content fails; when the call succeeds on a title the
    result has at most 80 characters; and, with a client built, on a
    failed call the title handed to the reconciler is the scraped title
    whether or not rewriting is enabled. *)
Theorem rewrite_fallback (E : env) (text : string) (is_title : bool) :
  let prompt := if is_title then TITLE_PROMPT text else DESC_PROMPT text in
  let failed := completion E prompt = None ∨ completion E prompt = Some None in
  ((openai_imported E = false ∨
    truthy (from_option id "" (environ E !! "OPENAI_API_KEY")) = false) →
   openai_optimize E text is_title = Returned text) ∧
  (client_raises E = false → failed →
   openai_optimize E text is_title = Returned text) ∧
  (openai_imported E = true →
   truthy (from_option id "" (environ E !! "OPENAI_API_KEY")) = true →
   client_raises E = false →
   ∀ c, completion E prompt = Some (Some c) → is_title = true →
   ∃ out, openai_optimize E text is_title = Returned out ∧
          (String.length out ≤ 80)%nat) ∧
  (client_raises E = false → is_title = true → failed →
   ∀ do_title_opt, opt_title E do_title_opt text = Returned text).
Proof.
  intros prompt failed. unfold openai_optimize.
  assert (Hfail : client_raises E = false → failed →
                  openai_optimize E text is_title = Returned text).
  { intros Hc Hf. unfold openai_optimize.
    destruct (openai_imported E); [|done]. simpl.
    destruct (truthy _); [|done]. simpl. rewrite Hc.
    fold prompt. by destruct Hf as [-> | ->]. }
  split; [|split; [|split]].
  - intros [-> | Hk]; [done|]. destruct (openai_imported E); [|done].
    simpl. by rewrite Hk.
  - exact Hfail.
  - intros Hi Hk Hc c Hcomp ->. rewrite Hi, Hk, Hc. simpl.
    fold prompt. rewrite Hcomp. eexists. split; [reflexivity|].
    apply substring0_length.
  - intros Hc Ht Hf [|]; simpl; [|done].
    subst. unfold openai_optimize in Hfail. by apply Hfail.
Qed.

Lemma rewrite_fallback_witness :
  let E_down := {| openai_imported := true;
                   environ := {[ "OPENAI_API_KEY" := "sk-test" ]};
                   client_raises := false;
                   completion := fun _ => None |} in
  let E_up := {| openai_imported := true;
                 environ := {[ "OPENAI_API_KEY" := "sk-test" ]};
                 client_raises := false;
                 completion := fun _ => Some (Some "  Vintage Widget Collectible  ") |} in
  openai_optimize E_down "Widget" true = Returned "Widget" ∧
  ∃ out, openai_optimize E_up "Widget" true = Returned out ∧
         (String.length out ≤ 80)%nat.
Proof.
  intros E_down E_up. split.
  - destruct (rewrite_fallback E_down "Widget" true) as (_ & H2 & _).
    apply H2; [reflexivity|]. left. reflexivity.
  - destruct (rewrite_fallback E_up "Widget" true) as (_ & _ & H3 & _).
    apply (H3 eq_refl eq_refl eq_refl "  Vintage Widget Collectible  ");
      reflexivity.
Defined.

(** ** C8 *)

(** C8 (code_bug): a failure of the client constructor
    [OpenAI(api_key=...)] is not caught: it runs before the [try].  With
    the package imported and a non-empty key, when the constructor
    raises, [openai_optimize] raises instead of returning [text], the
    title step with rewriting enabled raises instead of keeping the
    scraped title, and the run of [main] ends on that seed row. *)
Theorem client_failure_escapes (E : env) (text : string) (is_title : bool) :
  openai_imported E = true →
  truthy (from_option id "" (environ E !! "OPENAI_API_KEY")) = true →
  client_raises E = true →
  openai_optimize E text is_title = Raised ∧
  opt_title E true text = Raised ∧
  (∀ scrape html_text a headers seed s,
     truthy (strip (get seed "URL" "")) = true →
     scrape (strip (get seed "URL" "")) (pybool (Args.use_selenium a))
       (pybool (Args.headless a)) = Some s →
     get seed "OptimizeTitle" "Y" = "Y" → pybool (Args.optimize a) = true →
     main_row scrape html_text E a headers seed = Abort RewriteRaised).
Proof.
  intros Hi Hk Hc.
  assert (Hr : ∀ b, openai_optimize E text b = Raised).
  { intros b. unfold openai_optimize. rewrite Hi, Hk, Hc. reflexivity. }
  split; [apply Hr|]. split; [apply Hr|].
  intros scrape html_text a headers seed s Hu Hs Ho Hopt.
  unfold main_row. rewrite Hu. cbn [negb]. rewrite Hs.
  unfold mbind, run_bind. rewrite Ho, Hopt. cbn [String.eqb Ascii.eqb Bool.eqb andb].
  unfold opt_title. unfold openai_optimize. rewrite Hi, Hk, Hc. reflexivity.
Qed.

Lemma client_failure_escapes_witness :
  let E := {| openai_imported := true;
              environ := {[ "OPENAI_API_KEY" := "sk-test" ]};
              client_raises := true;
              completion := fun _ => None |} in
  let sc := {| title := "Widget"; description_html := ""; price := None;
               category_id := ""; condition_text := ""; images := [];
               item_specifics := ∅ |} in
  let a := {| Args.seed := "seed.csv"; Args.template := "tpl.csv"; Args.out := None;
              Args.optimize := 1%Z; Args.use_selenium := 0%Z; Args.headless := 1%Z;
              Args.dry_run := 0%Z; Args.preview := None; Args.write_final := 0%Z |} in
  openai_optimize E "Widget" true = Raised ∧ opt_title E true "Widget" = Raised ∧
  main_row (fun _ _ _ => Some sc) (fun h => h) E a ["*Title"]
    {[ "URL" := "http://x/1" ]} = Abort RewriteRaised.
Proof.
  intros E sc a.
  destruct (client_failure_escapes E "Widget" true eq_refl eq_refl eq_refl) as (H1 & H2 & H3).
  split; [exact H1|]. split; [exact H2|].
  apply (H3 (fun _ _ _ => Some sc) (fun h => h) a ["*Title"] {[ "URL" := "http://x/1" ]} sc);
    reflexivity.
Defined.

End RewriterClaims.

(* ================================================================== *)
(** * The image list *)

Module ImageClaims.

Import PyStr PyStrFacts Scrape.

Lemma list_in_app (x : string) (l1 l2 : list string) :
  list_in x (app l1 l2) = list_in x l1 || list_in x l2.
Proof. unfold list_in. apply existsb_app. Qed.

Lemma dict_fromkeys_snoc (l : list string) (x : string) :
  dict_fromkeys (app l [x]) =
  (let acc := dict_fromkeys l in if list_in x acc then acc else app acc [x]).
Proof. unfold dict_fromkeys. by rewrite foldl_app. Qed.

Lemma dict_fromkeys_in (l : list string) (y : string) :
  list_in y (dict_fromkeys l) = list_in y l.
Proof.
  induction l as [|x l IH] using rev_ind; [done|].
  rewrite dict_fromkeys_snoc. simpl. rewrite list_in_app.
  destruct (list_in x (dict_fromkeys l)) eqn:Hx.
  - rewrite IH. unfold list_in at 3. simpl. rewrite orb_false_r.
    destruct (String.eqb y x) eqn:Hyx; [|by rewrite orb_false_r].
    apply String.eqb_eq in Hyx. subst. rewrite <- IH, Hx. done.
  - by rewrite list_in_app, IH.
Qed.

Lemma dict_fromkeys_NoDup (l : list string) : NoDup (dict_fromkeys l).
Proof.
  induction l as [|x l IH] using rev_ind; [constructor|].
  rewrite dict_fromkeys_snoc. simpl.
  destruct (list_in x (dict_fromkeys l)) eqn:Hx; [done|].
  apply NoDup_app. split; [done|]. split; [|apply NoDup_singleton].
  intros y Hy Hyx. apply list_elem_of_singleton in Hyx. subst.
  apply list_in_true in Hy. congruence.
Qed.

Lemma combine_snoc {A B : Type} (l1 : list A) (l2 : list B) (a : A) (b : B) :
  length l1 = length l2 →
  combine (app l1 [a]) (app l2 [b]) = app (combine l1 l2) [(a, b)].
Proof.
  revert l2. induction l1 as [|x l1 IH]; intros [|y l2] Hl; simpl in *;
    try discriminate; [done|].
  f_equal. apply IH. lia.
Qed.

Lemma first_seen_snoc (l : list string) (x : string) :
  first_seen (app l [x]) = app (first_seen l) (if list_in x l then [] else [x]).
Proof.
  unfold first_seen. rewrite length_app. simpl.
  rewrite Nat.add_1_r, seq_S, Nat.add_0_l.
  rewrite combine_snoc by (by rewrite length_seq).
  rewrite List.filter_app, List.map_app. f_equal.
  - f_equal. apply List.filter_ext_in. intros [y i] Hyi. simpl.
    apply in_combine_r, in_seq in Hyi.
    rewrite firstn_app. replace (i - length l)%nat with 0%nat by lia.
    by rewrite firstn_O, app_nil_r.
  - simpl. rewrite firstn_app, Nat.sub_diag, firstn_O, app_nil_r, firstn_all.
    by destruct (list_in x l).
Qed.

Lemma dict_fromkeys_first_seen (l : list string) :
  dict_fromkeys l = first_seen l.
Proof.
  induction l as [|x l IH] using rev_ind; [done|].
  rewrite dict_fromkeys_snoc, first_seen_snoc. simpl.
  rewrite dict_fromkeys_in, <- IH. destruct (list_in x l); [by rewrite app_nil_r|done].
Qed.

Lemma collect_images_http (product : gmap string json) (u : string) :
  u ∈ collect_images product → startswith u "http" = true.
Proof.
  assert (Hf : ∀ v, u ∈ field_images v → startswith u "http" = true).
  { intros v Hu. destruct v as [[| | | s | vs | kvs]|]; simpl in Hu;
      try (exfalso; by apply not_elem_of_nil in Hu).
    - destruct (startswith s "http") eqn:Hs;
        [|exfalso; by apply not_elem_of_nil in Hu].
      by apply list_elem_of_singleton in Hu as ->.
    - apply list_elem_of_In, in_flat_map in Hu as (x & _ & Hin).
      destruct x as [| | | s | xs | kvs]; simpl in Hin; try contradiction.
      destruct (startswith s "http") eqn:Hs; simpl in Hin; [|contradiction].
      by destruct Hin as [<- | []]. }
  unfold collect_images. intros [Hu|Hu]%elem_of_app; by eapply Hf.
Qed.

(** ** C9 *)

(** C9: the extracted image list is the candidate list (the [http]
    strings of the [image] and [images] fields, in order) with every
    value kept at its first occurrence only: it equals [first_seen] of
    the candidates, has no duplicates, has the same members as the
    candidates, holds only strings starting with ["http"], and holds
    each candidate exactly once, however often the fields repeat it. *)
Theorem images_first_seen (product : gmap string json) :
  let cand := collect_images product in
  let res := images product in
  res = first_seen cand ∧
  NoDup res ∧
  (∀ u, u ∈ res ↔ u ∈ cand) ∧
  (∀ u, u ∈ res → startswith u "http" = true) ∧
  (∀ u, u ∈ cand → count_occ String.string_dec res u = 1%nat).
Proof.
  intros cand res.
  assert (Hmem : ∀ u, u ∈ res ↔ u ∈ cand).
  { intros u. rewrite <- !list_in_true. apply eq_iff_eq_true.
    apply dict_fromkeys_in. }
  assert (Hnd : NoDup res) by apply dict_fromkeys_NoDup.
  split; [apply dict_fromkeys_first_seen|].
  split; [done|]. split; [done|]. split.
  - intros u Hu. apply (collect_images_http product). by apply Hmem.
  - intros u Hu. apply NoDup_count_occ'; [|apply list_elem_of_In; by apply Hmem].
    apply NoDup_ListNoDup. done.
Qed.

End ImageClaims.

(* ================================================================== *)
(** * The JSON-LD blocks, the price, the category and the item
      specifics of [scrape_ebay_listing] *)

Module ScrapeLDFacts.

Import PyStr PyStrFacts PyFloat Scrape ScrapeLD.

Local Open Scope string_scope.

(** The invariant of [data]: every dict is stored under its own
    [@type]: a non-empty string in [ld_strs]; in [ld_others] a truthy
    number or boolean, whose key is the stored one or equal to it. *)
Definition ld_ok (data : ld_data) : Prop :=
  (∀ t d, ld_strs data !! t = Some d → d !! "@type" = Some (JStr t) ∧ truthy t = true) ∧
  (∀ k d, (k, d) ∈ ld_others data →
     ∃ v k', d !! "@type" = Some v ∧ json_truthy v = true ∧ json_key v = Some k' ∧
             (k = k' ∨ key_eq k k' = true)).

Lemma ld_ok_set_str (data : ld_data) (t : string) (d : gmap string json) :
  ld_ok data → d !! "@type" = Some (JStr t) → truthy t = true →
  ld_ok (ld_set_str t d data).
Proof.
  intros [Hs Ho] Hd Ht. split; [|exact Ho].
  intros t' d'. simpl. destruct (String.eq_dec t t') as [<-|Hne].
  - rewrite lookup_insert_eq. intros [= <-]. auto.
  - rewrite lookup_insert_ne by done. apply Hs.
Qed.

Lemma set_other_elem (k : pykey) (d : gmap string json) l k0 d0 :
  (k0, d0) ∈ set_other k d l →
  (k0, d0) ∈ l ∨ (d0 = d ∧ (k0 = k ∨ key_eq k0 k = true)).
Proof.
  induction l as [|[k' d'] r IH]; simpl; intros H.
  - apply list_elem_of_singleton in H. injection H as -> ->. auto.
  - destruct (key_eq k' k) eqn:E; apply elem_of_cons in H as [H|H].
    + injection H as -> ->. auto.
    + left. apply elem_of_cons. auto.
    + injection H as -> ->. left. apply elem_of_cons. auto.
    + destruct (IH H) as [?|?]; [left; apply elem_of_cons|]; auto.
Qed.

Lemma ld_ok_set_other (data : ld_data) (k : pykey) (v : json) (d : gmap string json) :
  ld_ok data → d !! "@type" = Some v → json_truthy v = true → json_key v = Some k →
  ld_ok (ld_set_other k d data).
Proof.
  intros [Hs Ho] Hd Hv Hk. split; [exact Hs|].
  intros k0 d0 Hin. simpl in Hin.
  destruct (set_other_elem _ _ _ _ _ Hin) as [H|[-> H]]; [by apply Ho|].
  exists v, k. auto.
Qed.

Lemma ld_types_truthy (t : string) : list_in t ld_types = true → truthy t = true.
Proof.
  unfold list_in, ld_types. simpl.
  destruct (String.eqb_spec t "Product") as [->|]; [done|].
  destruct (String.eqb_spec t "Offer") as [->|]; [done|].
  destruct (String.eqb_spec t "BreadcrumbList") as [->|]; done.
Qed.

Lemma ld_entry_ok (data : ld_data) (e : json) : ld_ok data → ld_ok (ld_entry data e).
Proof.
  intros Hok. destruct e as [| | | | |kvs]; unfold ld_entry; try done.
  destruct (obj_dict kvs !! "@type") as [[| | | t | |]|] eqn:Ht; try done.
  destruct (list_in t ld_types) eqn:Hl; [|done].
  apply ld_ok_set_str; auto using ld_types_truthy.
Qed.

Lemma ld_tag_ok (data : ld_data) (p : option json) : ld_ok data → ld_ok (ld_tag data p).
Proof.
  intros Hok. destruct p as [[| | | | es |kvs]|]; unfold ld_tag; try done.
  - revert data Hok. induction es as [|e es IH]; intros data Hok; simpl; [done|].
    apply IH, ld_entry_ok, Hok.
  - destruct (obj_dict kvs !! "@type") as [v|] eqn:Ht; [|done].
    destruct (json_truthy v) eqn:Hv; [|done].
    destruct v as [| | | t | |]; try done;
      try (destruct (json_key _) eqn:Hk; [eapply ld_ok_set_other; eauto|done]).
    by apply ld_ok_set_str.
Qed.


(** [s.split(sep)] never yields a part holding [sep]. *)
Lemma split_char_parts (sep : ascii) (s : string) :
  Forall (fun p => has_char sep p = false) (split_char sep s).
Proof.
  induction s as [|c r IH]; simpl.
  - constructor; [done|constructor].
  - destruct (Ascii.eqb c sep) eqn:Hc.
    + constructor; [done|exact IH].
    + destruct (split_char sep r) as [|p ps] eqn:Hs.
      * constructor; [|constructor]. simpl.
        rewrite orb_false_r. apply Ascii.eqb_neq. apply Ascii.eqb_neq in Hc. congruence.
      * inversion IH as [|? ? Hp Hps]; subst. constructor; [|done].
        simpl. rewrite Hp, orb_false_r. apply Ascii.eqb_neq.
        apply Ascii.eqb_neq in Hc. congruence.
Qed.

Lemma split_char_nonempty (sep : ascii) (s : string) : split_char sep s ≠ [].
Proof.
  destruct s as [|c r]; simpl; [done|].
  destruct (Ascii.eqb c sep); [done|]. by destruct (split_char sep r).
Qed.

Lemma last_segment_no_slash (s : string) : has_char "/" (last_segment s) = false.
Proof.
  unfold last_segment. pose proof (split_char_parts "/" s) as Hall.
  pose proof (split_char_nonempty "/" s) as Hne.
  induction (split_char "/" s) as [|p ps _] using rev_ind; [done|].
  rewrite List.last_last.
  apply Forall_app in Hall as [_ Hx]. by inversion Hx.
Qed.

Lemma split_char_no_sep (sep : ascii) (q : string) :
  has_char sep q = false → split_char sep q = [q].
Proof.
  induction q as [|c r IH]; simpl; [done|].
  intros H. apply orb_false_iff in H as [H1 H2].
  rewrite Ascii.eqb_sym, H1, IH by done. done.
Qed.

Lemma split_char_app (sep : ascii) (p q : string) :
  ∃ l, l ≠ [] ∧ split_char sep (p ++ String sep q) = app l (split_char sep q).
Proof.
  induction p as [|c r IH]; simpl.
  - rewrite Ascii.eqb_refl. by exists [""].
  - destruct IH as ([|l0 ls] & Hl & ->); [done|].
    destruct (Ascii.eqb c sep).
    + by exists ("" :: l0 :: ls).
    + by exists (String c l0 :: ls).
Qed.

Lemma last_app_nonempty {A : Type} (l m : list A) (d : A) :
  m ≠ [] → List.last (app l m) d = List.last m d.
Proof.
  intros Hm. induction l as [|x l IH]; [done|].
  simpl. rewrite IH. destruct l as [|y l]; simpl; [by destruct m|].
  destruct (app l m) eqn:E; [|done]. apply app_eq_nil in E as [_ ->]. done.
Qed.

Lemma last_split_char_app (sep : ascii) (p q : string) :
  List.last (split_char sep (p ++ String sep q)) "" = List.last (split_char sep q) "".
Proof.
  destruct (split_char_app sep p q) as (l & _ & ->).
  apply last_app_nonempty, split_char_nonempty.
Qed.

Lemma last_segment_after_slash (p q : string) :
  has_char "/" q = false → last_segment (p ++ "/" ++ q) = q.
Proof.
  intros Hq. unfold last_segment. change ("/" ++ q) with (String "/" q).
  rewrite last_split_char_app, split_char_no_sep by done. done.
Qed.

Lemma lookup_obj_dict_app (kvs : list (string * json)) (k : string) (v : json) :
  obj_dict (app kvs [(k, v)]) !! k = Some v.
Proof. unfold obj_dict. rewrite foldl_app. simpl. by rewrite lookup_insert_eq. Qed.

Lemma item_specifics_step_ok (m : gmap string string) (ltxt : string) (val : option string) :
  let key := strip_colon ltxt in
  let m' := match val with
            | Some vtxt => if truthy key && truthy vtxt then <[key := vtxt]> m else m
            | None => m
            end in
  ∀ k v, m' !! k = Some v → m !! k = Some v ∨
         (val = Some v ∧ k = strip_colon ltxt ∧ truthy k = true ∧ truthy v = true).
Proof.
  intros key m' k v. subst m'. destruct val as [vtxt|]; [|auto].
  destruct (truthy key && truthy vtxt) eqn:Ht; [|auto].
  apply andb_true_iff in Ht as [Hk Hv].
  destruct (String.eq_dec key k) as [<-|Hne].
  - rewrite lookup_insert_eq. intros [= <-]. right. auto.
  - rewrite lookup_insert_ne by done. auto.
Qed.

End ScrapeLDFacts.

Module ScrapeLDExtras.

Import PyStr PyStrFacts PyFloat Scrape ScrapeLD ScrapeLDFacts.

Local Open Scope string_scope.

(** Every dict [parse_json_ld] returns is stored under its own
    [@type]: under a string key, a non-empty string; under any other
    key, a truthy number or [true], whose key is the stored one or
    compares equal to it (a later equal key keeps the first key). *)
Theorem parse_json_ld_typed (tags : list (option json)) :
  (∀ t d, ld_strs (parse_json_ld tags) !! t = Some d →
          d !! "@type" = Some (JStr t) ∧ truthy t = true) ∧
  (∀ k d, (k, d) ∈ ld_others (parse_json_ld tags) →
     ∃ v k', d !! "@type" = Some v ∧ json_truthy v = true ∧ json_key v = Some k' ∧
             (k = k' ∨ key_eq k k' = true)).
Proof.
  unfold parse_json_ld.
  assert (Hok : ∀ data, ld_ok data → ld_ok (foldl ld_tag data tags)).
  { induction tags as [|p ps IH]; intros data Hdata; simpl; [done|].
    apply IH, ld_tag_ok, Hdata. }
  apply Hok. split.
  - intros t d. simpl. by rewrite lookup_empty.
  - intros k d Hin. simpl in Hin. by apply elem_of_nil in Hin.
Qed.

Lemma parse_json_ld_typed_witness :
  (∃ d, ld_strs (parse_json_ld [None; Some (JObj [("@type", JStr "Product"); ("name", JStr "Card")])])
          !! "Product" = Some d ∧ d !! "@type" = Some (JStr "Product") ∧ truthy "Product" = true) ∧
  ld_others (parse_json_ld [Some (JObj [("@type", JNum "5")]);
                            Some (JObj [("@type", JNum "5.0"); ("name", JStr "B")])])
  = [(KInt 5, obj_dict [("@type", JNum "5.0"); ("name", JStr "B")])] ∧
  (∃ v k', obj_dict [("@type", JNum "5.0"); ("name", JStr "B")] !! "@type" = Some v ∧
           json_truthy v = true ∧ json_key v = Some k' ∧ (KInt 5 = k' ∨ key_eq (KInt 5) k' = true)).
Proof.
  split; [|split].
  - eexists. split; [reflexivity|].
    apply (proj1 (parse_json_ld_typed [None; Some (JObj [("@type", JStr "Product"); ("name", JStr "Card")])])
             "Product"). reflexivity.
  - vm_compute. reflexivity.
  - apply (proj2 (parse_json_ld_typed [Some (JObj [("@type", JNum "5")]);
                                       Some (JObj [("@type", JNum "5.0"); ("name", JStr "B")])])).
    vm_compute. constructor.
Defined.



(** The scraped price: a string price is read as [float(s)] (so a
    non-numeric or empty string gives no price); a missing, [null],
    [false], list or object price gives none; the JSON value [true]
    gives 1.0; an integer price never gives an infinite value. *)
Theorem scraped_price_cases (offer : gmap string json) :
  (∀ s, offer !! "price" = Some (JStr s) → scraped_price offer = py_float s) ∧
  ((offer !! "price" = None ∨ offer !! "price" = Some JNull ∨
    offer !! "price" = Some (JBool false) ∨
    (∃ xs, offer !! "price" = Some (JArr xs)) ∨
    (∃ kvs, offer !! "price" = Some (JObj kvs))) → scraped_price offer = None) ∧
  (offer !! "price" = Some (JBool true) →
   scraped_price offer = Some (S754_finite false 1 0)) ∧
  (∀ lit x, offer !! "price" = Some (JNum lit) → is_int_literal lit = true →
   scraped_price offer = Some x → ∀ b, x ≠ S754_infinity b).
Proof.
  unfold scraped_price. split; [|split; [|split]].
  - intros s ->. simpl. destruct (truthy s) eqn:Hs; [done|].
    unfold truthy in Hs. apply negb_false_iff, String.eqb_eq in Hs. subst.
    reflexivity.
  - intros [-> | [-> | [-> | [[xs ->] | [kvs ->]]]]]; try done.
    + by destruct xs.
    + by destruct kvs.
  - intros ->. reflexivity.
  - intros lit x -> Hint. simpl. unfold json_num. rewrite Hint.
    destruct (negb _); [|done]. unfold int_to_float.
    destruct (round_decimal _ _ _); intros [= <-] b; done.
Qed.

Lemma scraped_price_cases_witness :
  scraped_price {[ "price" := JStr "19.99" ]} = py_float "19.99" ∧
  scraped_price {[ "price" := JArr [JStr "19.99"] ]} = None ∧
  scraped_price {[ "price" := JBool true ]} = Some (S754_finite false 1 0) ∧
  scraped_price {[ "price" := JNum "1e400" ]} = Some (S754_infinity false) ∧
  scraped_price {[ "price" := JNum ("1" ++ String.concat "" (repeat "0" 309)) ]} = None ∧
  (∀ x, scraped_price {[ "price" := JNum "25" ]} = Some x → ∀ b, x ≠ S754_infinity b).
Proof.
  destruct (scraped_price_cases {[ "price" := JStr "19.99" ]}) as (H1 & _).
  destruct (scraped_price_cases {[ "price" := JArr [JStr "19.99"] ]}) as (_ & H2 & _).
  destruct (scraped_price_cases {[ "price" := JBool true ]}) as (_ & _ & H3 & _).
  destruct (scraped_price_cases {[ "price" := JNum "25" ]}) as (_ & _ & _ & H4).
  split; [apply H1; reflexivity|].
  split; [apply H2; right; right; right; left; eexists; reflexivity|].
  split; [apply H3; reflexivity|].
  split; [vm_compute; reflexivity|].
  split; [vm_compute; reflexivity|].
  intros x Hx. apply (H4 "25" x); [reflexivity|reflexivity|exact Hx].
Defined.

(** The category id never holds a ['/']: it is the part of [str(@id)]
    after its last ['/'] (all of it when there is none), [""] for an
    [@id] ending in ['/']. *)
Theorem category_id_segment (str_other : json -> string) (bc : gmap string json) :
  has_char "/" (category_id str_other bc) = false ∧
  (∀ xs kvs ikvs p q,
     bc !! "itemListElement" = Some (JArr (app xs [JObj kvs])) →
     obj_dict kvs !! "item" = Some (JObj ikvs) →
     obj_dict ikvs !! "@id" = Some (JStr (p ++ "/" ++ q)) →
     has_char "/" q = false →
     category_id str_other bc = q).
Proof.
  split.
  - unfold category_id. case_bool_decide; [done|].
    destruct (bc !! "itemListElement") as [[| | | | xs |]|]; try done.
    destruct (List.rev xs) as [|[| | | | |kvs] _]; try done.
    destruct (from_option id (JObj []) (obj_dict kvs !! "item")) as [| | | | |ikvs]; try done.
    apply last_segment_no_slash.
  - intros xs kvs ikvs p q Hl Hi Hid Hq. unfold category_id.
    rewrite bool_decide_false.
    2:{ intros ->. by rewrite lookup_empty in Hl. }
    rewrite Hl, rev_app_distr. simpl. rewrite Hi. simpl. rewrite Hid. simpl.
    by apply last_segment_after_slash.
Qed.

Lemma category_id_segment_witness :
  let bc : gmap string json :=
    {[ "itemListElement" :=
         JArr [JObj [("item", JObj [("@id", JStr "https://www.ebay.com/b/Cards/212")])]] ]} in
  category_id (fun _ => "") bc = "212".
Proof.
  intros bc. destruct (category_id_segment (fun _ => "") bc) as [_ H].
  apply (H [] [("item", JObj [("@id", JStr "https://www.ebay.com/b/Cards/212")])]
           [("@id", JStr "https://www.ebay.com/b/Cards/212")] "https://www.ebay.com/b/Cards" "212");
    reflexivity.
Defined.

(** The category id stays empty when the breadcrumb list is empty or
    is not a list, and when the last breadcrumb's [item] is a plain
    string (a URL) rather than a dict with an [@id]. *)
Theorem category_id_malformed (str_other : json -> string) (bc : gmap string json) :
  (bc !! "itemListElement" = Some (JArr []) → category_id str_other bc = "") ∧
  (∀ v, bc !! "itemListElement" = Some v → (∀ xs, v ≠ JArr xs) →
        category_id str_other bc = "") ∧
  (∀ xs kvs s, bc !! "itemListElement" = Some (JArr (app xs [JObj kvs])) →
     obj_dict kvs !! "item" = Some (JStr s) → category_id str_other bc = "").
Proof.
  unfold category_id. split; [|split].
  - intros ->. by case_bool_decide.
  - intros v -> Hv. case_bool_decide; [done|].
    destruct v as [| | | | xs |]; try done. by destruct (Hv xs).
  - intros xs kvs s -> Hs. case_bool_decide; [done|].
    rewrite rev_app_distr. simpl. by rewrite Hs.
Qed.

Lemma category_id_malformed_witness :
  let bc : gmap string json :=
    {[ "itemListElement" :=
         JArr [JObj [("item", JStr "https://www.ebay.com/b/Cards/212")]] ]} in
  category_id (fun _ => "") bc = "".
Proof.
  intros bc. destruct (category_id_malformed (fun _ => "") bc) as (_ & _ & H).
  apply (H [] [("item", JStr "https://www.ebay.com/b/Cards/212")]
           "https://www.ebay.com/b/Cards/212"); reflexivity.
Defined.

Lemma item_specifics_snoc (labels : list (string * option string)) (lt : string)
    (val : option string) :
  item_specifics (app labels [(lt, val)]) =
  match val with
  | Some vtxt => if truthy (strip_colon lt) && truthy vtxt
                 then <[strip_colon lt := vtxt]> (item_specifics labels)
                 else item_specifics labels
  | None => item_specifics labels
  end.
Proof. unfold item_specifics. by rewrite foldl_app. Qed.

(** Every item specific the scraper keeps has a non-empty key and a
    non-empty value, and comes from a label whose text, stripped of
    colons, is the key, paired with that value; of two labels with the
    same key, the later one wins. *)
Theorem item_specifics_entries (labels : list (string * option string)) :
  (∀ k v, item_specifics labels !! k = Some v →
     truthy k = true ∧ truthy v = true ∧
     ∃ ltxt, (ltxt, Some v) ∈ labels ∧ strip_colon ltxt = k) ∧
  (∀ ltxt v, truthy (strip_colon ltxt) = true → truthy v = true →
     item_specifics (app labels [(ltxt, Some v)]) !! strip_colon ltxt = Some v).
Proof.
  split.
  - induction labels as [|[lt val] labels IH] using rev_ind; intros k v.
    { unfold item_specifics. simpl. by rewrite lookup_empty. }
    rewrite item_specifics_snoc. intros Hk.
    destruct (item_specifics_step_ok (item_specifics labels) lt val k v Hk)
      as [Hold | (-> & -> & Ht1 & Ht2)].
    + destruct (IH k v Hold) as (H1 & H2 & l & Hl & Hs).
      split; [done|]. split; [done|]. exists l. split; [|done].
      apply elem_of_app. by left.
    + split; [done|]. split; [done|]. exists lt. split; [|done].
      apply elem_of_app. right. by apply list_elem_of_singleton.
  - intros ltxt v Hk Hv. rewrite item_specifics_snoc, Hk, Hv. simpl.
    apply lookup_insert_eq.
Qed.

Lemma item_specifics_entries_witness :
  item_specifics [("Brand:", Some "Topps"); ("Brand", Some "Panini")] !! "Brand"
  = Some "Panini".
Proof.
  destruct (item_specifics_entries [("Brand:", Some "Topps")]) as [_ H].
  apply (H "Brand" "Panini"); reflexivity.
Defined.

End ScrapeLDExtras.

(* ================================================================== *)
(** * More columns of the reconciler *)

Module ReconcileExtras.

Import PyStr PyStrFacts PyFloat Reconcile SpecNotions ReconcileFacts ReconcileMoreFacts.

Local Open Scope string_scope.

(** Whenever the reconciler returns a row, the columns it fills from
    its arguments and the seed row hold: [CustomLabel] the seed's
    [CustomLabel] (or [""]), [*Category] the category id, [*Title] and
    [*Description] the texts passed in, [Subtitle] [""], [*Quantity]
    [qty], [PictureURL] [picture_url], [ShippingType] [ship_type],
    [*Location] the seed's [LocationOverride] (or [""]),
    [*ReturnsAcceptedOption] ["ReturnsAccepted"], and
    [ShippingCostPaidByOption] the seed's [PostagePaidBy] when the seed
    has that column, even an empty one, ["Buyer"] only when it has not. *)
Theorem reconciled_columns headers seed t d price cat cond imgs sp out i h :
  build_output_row headers seed t d price cat cond imgs sp = Ok out →
  headers !! i = Some h →
  (h = "CustomLabel" → out !! i = Some (get seed "CustomLabel" "")) ∧
  (h = "*Category" → out !! i = Some cat) ∧
  (h = "*Title" → out !! i = Some t) ∧
  (h = "Subtitle" → out !! i = Some "") ∧
  (h = "*Description" → out !! i = Some d) ∧
  (h = "*Quantity" → out !! i = Some (qty seed)) ∧
  (h = "PictureURL" → out !! i = Some (picture_url seed imgs)) ∧
  (h = "ShippingType" → out !! i = Some (ship_type seed)) ∧
  (h = "*Location" → out !! i = Some (get seed "LocationOverride" "")) ∧
  (h = "*ReturnsAcceptedOption" → out !! i = Some "ReturnsAccepted") ∧
  (h = "ShippingCostPaidByOption" → out !! i = Some (get seed "PostagePaidBy" "Buyer")).
Proof.
  intros Hout Hi. pose proof (headers_lookup_in _ _ _ Hi) as Hin.
  assert (Hcell : h ≠ "*Duration" → ∃ row0,
            row0 !! h = start_row headers seed t d cat !! h ∧
            out !! i = Some (get (finish_row headers seed price imgs sp row0) h ""))
    by (intros Hd; eapply build_output_row_cell; eauto).
  assert (Hstart : ∀ v, h ≠ "*Duration" → startswith h "C:" = false → h ∉ finish_keys →
            start_row headers seed t d cat !! h = Some v → out !! i = Some v).
  { intros v Hd Hc Hf Hs. destruct (Hcell Hd) as (row0 & H0 & ->).
    unfold get. rewrite finish_row_other by done. by rewrite H0, Hs. }
  assert (Hfin : ∀ v, h ≠ "*Duration" →
            (∀ row0, finish_row headers seed price imgs sp row0 !! h = Some v) →
            out !! i = Some v).
  { intros v Hd Hf. destruct (Hcell Hd) as (row0 & _ & ->). unfold get. by rewrite Hf. }
  repeat split; intros ->.
  - apply Hstart; try done. { unfold finish_keys. not_in_literals. }
    apply start_row_custom_label.
  - apply Hstart; try done. { unfold finish_keys. not_in_literals. }
    rewrite (start_row_plain _ _ _ _ _ _ (or_str cat "")); [|by left|done].
    unfold or_str. destruct (truthy cat) eqn:Hc; [done|].
    unfold truthy in Hc. apply negb_false_iff, String.eqb_eq in Hc. by subst.
  - apply Hstart; try done. { unfold finish_keys. not_in_literals. }
    apply start_row_plain; [right; left|]; done.
  - apply Hstart; try done. { unfold finish_keys. not_in_literals. }
    apply start_row_plain; [right; right; left|]; done.
  - apply Hstart; try done. { unfold finish_keys. not_in_literals. }
    apply start_row_plain; [right; right; right; left|]; done.
  - apply Hfin; [done|]. intros row0. apply finish_row_plain; [left|]; done.
  - apply Hfin; [done|]. intros row0. apply finish_row_plain; [right; left|]; done.
  - apply Hfin; [done|]. intros row0.
    apply finish_row_plain; [do 2 right; left|]; done.
  - apply Hfin; [done|]. intros row0.
    rewrite (finish_row_plain _ _ _ _ _ _ _ (or_str (get seed "LocationOverride" "") DEFAULT_Location)).
    2:{ do 3 right. left. }
    2:{ done. }
    unfold or_str, DEFAULT_Location. destruct (truthy _) eqn:Hc; [done|].
    unfold truthy in Hc. apply negb_false_iff, String.eqb_eq in Hc. by rewrite Hc.
  - apply Hfin; [done|]. intros row0.
    apply finish_row_plain; [do 4 right; left|]; done.
  - apply Hfin; [done|]. intros row0.
    apply finish_row_plain; [do 5 right; left|]; done.
Qed.

Lemma reconciled_columns_witness :
  build_output_row ["ShippingCostPaidByOption"] {[ "PostagePaidBy" := "" ]}
    "" "" None "" "" [] ∅ = Ok [""] ∧
  [""] !! 0%nat = Some "".
Proof.
  split; [reflexivity|].
  destruct (reconciled_columns ["ShippingCostPaidByOption"] {[ "PostagePaidBy" := "" ]}
              "" "" None "" "" [] ∅ [""] 0 "ShippingCostPaidByOption")
    as (_ & _ & _ & _ & _ & _ & _ & _ & _ & _ & H); [reflexivity|reflexivity|].
  apply H. reflexivity.
Defined.

(** Whenever the reconciler returns a row, a header starting with
    [*Action(] holds ["Add"] when it is the first such header of the
    schema, and [""] otherwise. *)
Theorem action_columns headers seed t d price cat cond imgs sp out i h :
  build_output_row headers seed t d price cat cond imgs sp = Ok out →
  headers !! i = Some h → startswith h "*Action(" = true →
  out !! i = Some (if bool_decide (action_col headers = Some h) then "Add" else "").
Proof.
  intros Hout Hi Ha. pose proof (headers_lookup_in _ _ _ Hi) as Hin.
  assert (Hd : h ≠ "*Duration") by (intros ->; discriminate).
  destruct (build_output_row_cell _ _ _ _ _ _ _ _ _ _ _ _ Hout Hi Hd) as (row0 & H0 & ->).
  unfold get. rewrite finish_row_other.
  - by rewrite H0, start_row_action.
  - by apply action_not_c.
  - intros Hf. unfold finish_keys in Hf.
    repeat (apply elem_of_cons in Hf as [->|Hf]; [discriminate|]).
    by apply not_elem_of_nil in Hf.
Qed.

Lemma action_columns_witness :
  build_output_row ["*Action(SiteID=US)"; "*Action(x)"] ∅ "" "" None "" "" [] ∅ = Ok ["Add"; ""] ∧
  ["Add"; ""] !! 1%nat = Some "".
Proof.
  split; [reflexivity|].
  etransitivity.
  - apply (action_columns ["*Action(SiteID=US)"; "*Action(x)"] ∅ "" "" None "" "" [] ∅
             ["Add"; ""] 1 "*Action(x)"); reflexivity.
  - reflexivity.
Defined.

(** Whenever the reconciler returns a row, the [*Duration] column holds
    ["GTC"] when the seed's [FormatOverride] (["FixedPrice"] when the
    seed has no such column) is ["FixedPrice"], and otherwise the
    seed's [DurationOverride], even an empty one, ["Days_7"] only when
    the seed has no such column. *)
Theorem duration_column headers seed t d price cat cond imgs sp out i :
  build_output_row headers seed t d price cat cond imgs sp = Ok out →
  headers !! i = Some "*Duration" →
  out !! i = Some (if String.eqb (get seed "FormatOverride" "FixedPrice") "FixedPrice"
                   then "GTC" else get seed "DurationOverride" "Days_7").
Proof.
  intros Hout Hi. pose proof (headers_lookup_in _ _ _ Hi) as Hin.
  destruct (build_output_row_at _ _ _ _ _ _ _ _ _ _ _ _ Hout Hi) as (row & Hrow & ->).
  unfold build_row in Hrow. rewrite Hin in Hrow.
  destruct (start_row headers seed t d cat !! "*Format") as [fmt|] eqn:Ef; [|discriminate].
  injection Hrow as <-.
  destruct (list_in "*Format" headers) eqn:Hf.
  - rewrite start_row_format_some in Ef by done. injection Ef as <-.
    unfold get at 1. rewrite finish_row_other by (reflexivity || (unfold finish_keys; not_in_literals)).
    by rewrite lookup_insert_eq.
  - by rewrite start_row_format_none in Ef.
Qed.

Lemma duration_column_witness :
  build_output_row ["*Format"; "*Duration"]
    {[ "FormatOverride" := "Auction"; "DurationOverride" := "" ]} "" "" None "" "" [] ∅
  = Ok ["Auction"; ""] ∧ ["Auction"; ""] !! 1%nat = Some "".
Proof.
  split; [reflexivity|].
  etransitivity.
  - apply (duration_column ["*Format"; "*Duration"]
             {[ "FormatOverride" := "Auction"; "DurationOverride" := "" ]} "" "" None "" "" [] ∅
             ["Auction"; ""] 1); reflexivity.
  - reflexivity.
Defined.

(** Whenever the reconciler returns a row, the columns
    [ShippingService-1:Option] and [ShippingService-1:Cost] are filled
    (from [FlatService], else [ShippingService1_Option], and from
    [FlatCost], else [ShippingService1_Cost]) only when the shipping
    type resolves to ["Flat"]; for any other shipping type they are
    empty. *)
Theorem shipping_service_columns headers seed t d price cat cond imgs sp out i h :
  build_output_row headers seed t d price cat cond imgs sp = Ok out →
  headers !! i = Some h →
  (h = "ShippingService-1:Option" →
   out !! i = Some (if String.eqb (ship_type seed) "Flat"
                    then or_str (get seed "FlatService" "") (get seed "ShippingService1_Option" "")
                    else "")) ∧
  (h = "ShippingService-1:Cost" →
   out !! i = Some (if String.eqb (ship_type seed) "Flat"
                    then or_str (get seed "FlatCost" "") (get seed "ShippingService1_Cost" "")
                    else "")).
Proof.
  intros Hout Hi. pose proof (headers_lookup_in _ _ _ Hi) as Hin.
  split; intros ->;
    (destruct (build_output_row_cell _ _ _ _ _ _ _ _ _ _ _ _ Hout Hi) as (row0 & H0 & ->);
     [discriminate|]); unfold get.
  - rewrite (finish_row_service _ _ _ _ _ _ _
               (or_str (get seed "FlatService" "") (get seed "ShippingService1_Option" "")));
      [|left|done].
    destruct (String.eqb (ship_type seed) "Flat"); [done|].
    rewrite H0, start_row_other; try done; not_in_literals.
  - rewrite (finish_row_service _ _ _ _ _ _ _
               (or_str (get seed "FlatCost" "") (get seed "ShippingService1_Cost" "")));
      [|right; left|done].
    destruct (String.eqb (ship_type seed) "Flat"); [done|].
    rewrite H0, start_row_other; try done; not_in_literals.
Qed.

Lemma shipping_service_columns_witness :
  build_output_row ["ShippingService-1:Cost"]
    {[ "ShippingType" := "Calculated"; "FlatCost" := "4.50" ]} "" "" None "" "" [] ∅
  = Ok [""] ∧ [""] !! 0%nat = Some "".
Proof.
  split; [reflexivity|].
  destruct (shipping_service_columns ["ShippingService-1:Cost"]
              {[ "ShippingType" := "Calculated"; "FlatCost" := "4.50" ]} "" "" None "" "" [] ∅
              [""] 0 "ShippingService-1:Cost") as [_ H]; [reflexivity|reflexivity|].
  etransitivity; [apply H; reflexivity|reflexivity].
Defined.

(** Whenever the reconciler returns a row, the graded-card columns
    [CD:Professional Grader - (ID: 27501)], [CD:Grade - (ID: 27502)]
    and [CDA:Certification Number - (ID: 27503)] hold the seed's
    [ProfessionalGrader], [Grade] and [CertNumber] (or [""]), whatever
    the scraped item specifics hold. *)
Theorem seed_specific_columns headers seed t d price cat cond imgs sp out i h f :
  build_output_row headers seed t d price cat cond imgs sp = Ok out →
  headers !! i = Some h →
  (h, f) ∈ [("CD:Professional Grader - (ID: 27501)", "ProfessionalGrader");
            ("CD:Grade - (ID: 27502)", "Grade");
            ("CDA:Certification Number - (ID: 27503)", "CertNumber")] →
  out !! i = Some (get seed f "").
Proof.
  intros Hout Hi Hhf. pose proof (headers_lookup_in _ _ _ Hi) as Hin.
  assert (Hd : h ≠ "*Duration").
  { intros ->. repeat (apply elem_of_cons in Hhf as [Hhf|Hhf]; [discriminate|]).
    by apply not_elem_of_nil in Hhf. }
  assert (Hh : startswith h "*Action(" = false ∧
               h ∉ ["CustomLabel"; "*Category"; "*Title"; "Subtitle"; "*ConditionID";
                    "*Description"; "*Format"]).
  { repeat (apply elem_of_cons in Hhf as [Hhf|Hhf];
            [injection Hhf as -> ->; split; [reflexivity|not_in_literals]|]).
    by apply not_elem_of_nil in Hhf. }
  destruct Hh as [Ha Hl].
  destruct (build_output_row_cell _ _ _ _ _ _ _ _ _ _ _ _ Hout Hi Hd) as (row0 & H0 & ->).
  unfold get at 1. rewrite (finish_row_seed_specific _ _ _ _ _ _ _ _ Hhf Hin).
  destruct (truthy (get seed f "")) eqn:Ht; [done|].
  rewrite H0, start_row_other by done.
  unfold truthy in Ht. apply negb_false_iff, String.eqb_eq in Ht. by rewrite Ht.
Qed.

Lemma seed_specific_columns_witness :
  build_output_row ["CD:Grade - (ID: 27502)"] {[ "Grade" := "10" ]} "" "" None "" "" []
    {[ "Grade - (ID: 27502)" := "9" ]} = Ok ["10"] ∧ ["10"] !! 0%nat = Some "10".
Proof.
  split; [reflexivity|].
  etransitivity.
  - apply (seed_specific_columns ["CD:Grade - (ID: 27502)"] {[ "Grade" := "10" ]} "" "" None ""
             "" [] {[ "Grade - (ID: 27502)" := "9" ]} ["10"] 0 "CD:Grade - (ID: 27502)" "Grade");
      [reflexivity|reflexivity|right; left].
  - reflexivity.
Defined.

(** Whenever the reconciler returns a row, a [C:] column [h] holds the
    scraped item specific found under [h] with every ["C:"] removed and
    surrounding whitespace stripped, when that value is non-empty; and
    otherwise the seed's [CardCondition] (or [""]) for
    [C:Card Condition], [""] for any other [C:] column. *)
Theorem c_columns headers seed t d price cat cond imgs sp out i h :
  build_output_row headers seed t d price cat cond imgs sp = Ok out →
  headers !! i = Some h → startswith h "C:" = true →
  out !! i = Some (let seedv := if String.eqb h "C:Card Condition"
                                then get seed "CardCondition" "" else "" in
                   match sp !! strip (replace h "C:" "") with
                   | Some v => if truthy v then v else seedv
                   | None => seedv
                   end).
Proof.
  intros Hout Hi Hc. pose proof (headers_lookup_in _ _ _ Hi) as Hin.
  assert (Hd : h ≠ "*Duration") by (intros ->; discriminate).
  assert (Ha : startswith h "*Action(" = false).
  { destruct (startswith h "*Action(") eqn:Ha; [|done].
    apply action_not_c in Ha. congruence. }
  assert (Hl : h ∉ ["CustomLabel"; "*Category"; "*Title"; "Subtitle"; "*ConditionID";
                    "*Description"; "*Format"]).
  { repeat (apply not_elem_of_cons; split; [intros ->; discriminate|]).
    apply not_elem_of_nil. }
  destruct (build_output_row_cell _ _ _ _ _ _ _ _ _ _ _ _ Hout Hi Hd) as (row0 & H0 & ->).
  unfold get at 1. rewrite finish_row_c by done. fold (ckey h).
  rewrite H0, start_row_other by done. cbv zeta.
  assert (Hb : (if String.eqb h "C:Card Condition" && truthy (get seed "CardCondition" "")
                then Some (get seed "CardCondition" "") else Some "") =
               Some (if String.eqb h "C:Card Condition" then get seed "CardCondition" "" else "")).
  { destruct (String.eqb h "C:Card Condition"); [|done]. simpl.
    destruct (truthy _) eqn:Ht; [done|].
    unfold truthy in Ht. apply negb_false_iff, String.eqb_eq in Ht. by rewrite Ht. }
  rewrite Hb. destruct (sp !! ckey h) as [v|]; [|done]. by destruct (truthy v).
Qed.

Lemma c_columns_witness :
  build_output_row ["C: Year Manufactured "] ∅ "" "" None "" "" []
    {[ "Year Manufactured" := "1989" ]} = Ok ["1989"] ∧ ["1989"] !! 0%nat = Some "1989".
Proof.
  split; [reflexivity|].
  etransitivity.
  - apply (c_columns ["C: Year Manufactured "] ∅ "" "" None "" "" []
             {[ "Year Manufactured" := "1989" ]} ["1989"] 0 "C: Year Manufactured ");
      reflexivity.
  - reflexivity.
Defined.

(** Whenever the reconciler returns a row, a column that none of its
    steps writes (no [*Action(] or [C:] prefix, and none of the names
    below) holds [""]: the reconciler never fills other columns of the
    schema, whatever the seed row holds. *)
Theorem other_columns_empty headers seed t d price cat cond imgs sp out i h :
  build_output_row headers seed t d price cat cond imgs sp = Ok out →
  headers !! i = Some h →
  startswith h "*Action(" = false → startswith h "C:" = false →
  h ∉ ["CustomLabel"; "*Category"; "*Title"; "Subtitle"; "*ConditionID";
       "*Description"; "*Format"; "*Duration"; "*StartPrice"; "*Quantity";
       "PictureURL"; "ShippingType"; "*Location"; "ShippingService-1:Option";
       "ShippingService-1:Cost"; "*ReturnsAcceptedOption"; "ShippingCostPaidByOption";
       "CD:Professional Grader - (ID: 27501)"; "CD:Grade - (ID: 27502)";
       "CDA:Certification Number - (ID: 27503)"] →
  out !! i = Some "".
Proof.
  intros Hout Hi Ha Hc Hk. pose proof (headers_lookup_in _ _ _ Hi) as Hin.
  assert (Hcc : h ≠ "C:Card Condition") by (intros ->; discriminate).
  assert (Hf : h ∉ finish_keys).
  { unfold finish_keys. intros Hm.
    repeat (apply elem_of_cons in Hm as [->|Hm];
            [first [ done | apply Hk; by repeat (first [left | right]) ]|]).
    by apply not_elem_of_nil in Hm. }
  assert (Hs : h ∉ ["CustomLabel"; "*Category"; "*Title"; "Subtitle"; "*ConditionID";
                    "*Description"; "*Format"]).
  { intros Hm. apply Hk.
    repeat (apply elem_of_cons in Hm as [->|Hm]; [by repeat (first [left | right])|]).
    by apply not_elem_of_nil in Hm. }
  assert (Hd : h ≠ "*Duration") by (intros ->; apply Hk; by repeat (first [left | right])).
  destruct (build_output_row_cell _ _ _ _ _ _ _ _ _ _ _ _ Hout Hi Hd) as (row0 & H0 & ->).
  unfold get. rewrite finish_row_other by done. by rewrite H0, start_row_other.
Qed.

Lemma other_columns_empty_witness :
  build_output_row ["ReturnsWithinOption"] {[ "ReturnsWithinOverride" := "Days_30" ]}
    "" "" None "" "" [] ∅ = Ok [""] ∧ [""] !! 0%nat = Some "".
Proof.
  split; [reflexivity|].
  apply (other_columns_empty ["ReturnsWithinOption"] {[ "ReturnsWithinOverride" := "Days_30" ]}
           "" "" None "" "" [] ∅ [""] 0 "ReturnsWithinOption"); try reflexivity.
  not_in_literals.
Defined.

End ReconcileExtras.

(* ================================================================== *)
(** * [float(str)] and [normalize_price] around whitespace *)

Module PriceFacts.

Import PyStr PyFloat Reconcile FormatFacts.

Local Open Scope string_scope.

Lemma match_underscore {A} (p : ascii) (x y : A) :
  (match p with "_"%char => x | _ => y end) = if Ascii.eqb p "_" then x else y.
Proof. destruct p as [[] [] [] [] [] [] [] []]; reflexivity. Qed.

(** The characters [float()] strips: ASCII whitespace, and the other
    whitespace that [to_ascii] turns into a space. *)
Definition float_ws (c : ascii) : bool :=
  if Nat.ltb (nat_of_ascii c) 127 then is_ascii_space c else is_space c.

Definition ws_image (c : ascii) : ascii :=
  if Nat.ltb (nat_of_ascii c) 127 then c else " ".

Fixpoint all_float_ws (s : string) : bool :=
  match s with
  | EmptyString => true
  | String c r => float_ws c && all_float_ws r
  end.

Lemma float_ws_image (c : ascii) : float_ws c = true → is_ascii_space (ws_image c) = true.
Proof. unfold float_ws, ws_image. destruct (Nat.ltb _ _); [done|reflexivity]. Qed.

Lemma to_ascii_ws (c : ascii) (r : string) :
  float_ws c = true → to_ascii (String c r) = String (ws_image c) (to_ascii r).
Proof. unfold float_ws, ws_image. cbn [to_ascii]. destruct (Nat.ltb _ _); [done|]. by intros ->. Qed.

Lemma to_ascii_snoc (s : string) (c : ascii) :
  float_ws c = true →
  to_ascii (s ++ String c "") = to_ascii s ∨
  to_ascii (s ++ String c "") = to_ascii s ++ String (ws_image c) "".
Proof.
  intros Hc. induction s as [|d r IH].
  - right. change ("" ++ String c "") with (String c ""). by rewrite to_ascii_ws.
  - change (String d r ++ String c "") with (String d (r ++ String c "")).
    cbn [to_ascii]. destruct (Nat.ltb _ _); [|destruct (is_space d)].
    + destruct IH as [-> | ->]; [left|right]; reflexivity.
    + destruct IH as [-> | ->]; [left|right]; reflexivity.
    + left. reflexivity.
Qed.

(** A string [float()] sees as whitespace only. *)
Lemma float_ws_of_strip (w : string) :
  ascii_lstrip (to_ascii w) = "" → all_float_ws w = true.
Proof.
  induction w as [|d r IH]; [done|]. cbn [to_ascii all_float_ws]. unfold float_ws.
  destruct (Nat.ltb _ _).
  - cbn [ascii_lstrip]. destruct (is_ascii_space d); [|discriminate]. auto.
  - destruct (is_space d); [|discriminate]. cbn [ascii_lstrip]. auto.
Qed.

Lemma ascii_space_not_us (c : ascii) :
  is_ascii_space c = true → Ascii.eqb c "_" = false ∧ is_digit c = false.
Proof.
  destruct c as [[] [] [] [] [] [] [] []]; vm_compute;
    intros H; first [discriminate H | split; reflexivity].
Qed.

Lemma drop_underscores_prev (p : ascii) (s : string) :
  Ascii.eqb p "_" = false → is_digit p = false →
  drop_underscores (Some p) s = drop_underscores None s.
Proof.
  intros H1 H2. destruct s as [|c r]; simpl; rewrite !match_underscore, H1; [done|].
  destruct (Ascii.eqb c "_"); [by rewrite H2|done].
Qed.

Lemma drop_underscores_snoc (prev : option ascii) (s : string) (c : ascii) :
  is_ascii_space c = true →
  drop_underscores prev (s ++ String c "") =
  option_map (λ t, t ++ String c "") (drop_underscores prev s).
Proof.
  intros Hc. destruct (ascii_space_not_us c Hc) as [H1 H2].
  revert prev. induction s as [|d r IH]; intros prev; simpl.
  - rewrite H1. destruct prev as [p|]; simpl; rewrite ?match_underscore, ?H1, ?H2; [|done].
    by destruct (Ascii.eqb p "_").
  - rewrite !IH. destruct (Ascii.eqb d "_"); destruct prev as [p|];
      rewrite ?match_underscore; try done.
    + by destruct (is_digit p).
    + destruct (Ascii.eqb p "_"), (is_digit d); try done;
        by destruct (drop_underscores (Some d) r).
    + by destruct (drop_underscores (Some d) r).
Qed.

Lemma ascii_lstrip_snoc (t : string) (c : ascii) :
  is_ascii_space c = true →
  ascii_lstrip (t ++ String c "") =
  if String.eqb (ascii_lstrip t) "" then "" else ascii_lstrip t ++ String c "".
Proof.
  intros Hc. induction t as [|d r IH]; simpl; [by rewrite Hc|].
  by destruct (is_ascii_space d).
Qed.

Lemma ascii_strip_snoc (t : string) (c : ascii) :
  is_ascii_space c = true → ascii_strip (t ++ String c "") = ascii_strip t.
Proof.
  intros Hc. unfold ascii_strip. rewrite ascii_lstrip_snoc by done.
  destruct (String.eqb_spec (ascii_lstrip t) "") as [->|_]; [done|].
  rewrite rev_str_app. cbn [rev_str ascii_lstrip]. by rewrite Hc.
Qed.

Lemma py_float_cons (c : ascii) (s : string) :
  float_ws c = true → py_float (String c s) = py_float s.
Proof.
  intros Hc. pose proof (float_ws_image c Hc) as Hi.
  destruct (ascii_space_not_us _ Hi) as [H1 H2].
  unfold py_float. rewrite to_ascii_ws by done. cbn [drop_underscores].
  rewrite H1. cbn match. rewrite drop_underscores_prev by done.
  destruct (drop_underscores None (to_ascii s)) as [s0|]; simpl; [|done].
  assert (Hs : ascii_strip (String (ws_image c) s0) = ascii_strip s0)
    by (unfold ascii_strip; cbn [ascii_lstrip]; by rewrite Hi).
  by rewrite Hs.
Qed.

Lemma py_float_snoc (c : ascii) (s : string) :
  float_ws c = true → py_float (s ++ String c "") = py_float s.
Proof.
  intros Hc. unfold py_float.
  destruct (to_ascii_snoc s c Hc) as [-> | ->]; [done|].
  rewrite drop_underscores_snoc by (by apply float_ws_image).
  destruct (drop_underscores None (to_ascii s)); simpl; [|done].
  by rewrite ascii_strip_snoc by (by apply float_ws_image).
Qed.

Lemma str_app_assoc (a b c : string) : (a ++ b) ++ c = a ++ b ++ c.
Proof. induction a as [|x a IH]; [reflexivity|exact (f_equal (String x) IH)]. Qed.

Lemma str_app_nil_r (a : string) : a ++ "" = a.
Proof. induction a as [|x a IH]; [reflexivity|exact (f_equal (String x) IH)]. Qed.

Lemma py_float_space_around (w1 w2 v : string) :
  all_float_ws w1 = true → all_float_ws w2 = true →
  py_float (w1 ++ v ++ w2) = py_float v.
Proof.
  intros H1 H2. induction w1 as [|d r IH].
  - change ("" ++ v ++ w2) with (v ++ w2). clear H1.
    revert v. induction w2 as [|d r IH]; intros v.
    + by rewrite str_app_nil_r.
    + cbn [all_float_ws] in H2. apply andb_prop in H2 as [Hd Hr].
      replace (v ++ String d r) with ((v ++ String d "") ++ r) by (by rewrite str_app_assoc).
      rewrite IH by done. by apply py_float_snoc.
  - cbn [all_float_ws] in H1. apply andb_prop in H1 as [Hd Hr].
    change (String d r ++ v ++ w2) with (String d (r ++ v ++ w2)).
    rewrite py_float_cons by done. by apply IH.
Qed.

End PriceFacts.

Module PriceExtras.

Import PyStr PyFloat Reconcile PriceFacts.

Local Open Scope string_scope.

(** [normalize_price] reads a price override the same whatever
    whitespace [float()] strips surrounds it: [w1] and [w2] are empty
    once made ASCII and stripped of ASCII whitespace, as in [float()]
    (ASCII space, tab, newline, vertical tab, form feed, carriage
    return, and the non-ASCII spaces NEL and NBSP); a whitespace-only
    override falls back to the scraped price like an empty one. *)
Theorem normalize_price_whitespace (w1 w2 v : string) (scraped : option pyfloat) :
  ascii_lstrip (to_ascii w1) = "" → ascii_lstrip (to_ascii w2) = "" →
  normalize_price (Some (w1 ++ v ++ w2)) scraped = normalize_price (Some v) scraped.
Proof.
  intros H1 H2. unfold normalize_price.
  rewrite py_float_space_around by (by apply float_ws_of_strip).
  destruct (truthy v) eqn:Hv.
  - destruct (truthy (w1 ++ v ++ w2)) eqn:Hw; [done|].
    unfold truthy in *. apply negb_false_iff, String.eqb_eq in Hw.
    destruct v; [discriminate|]. by destruct w1.
  - unfold truthy in Hv. apply negb_false_iff, String.eqb_eq in Hv. subst v.
    by destruct (truthy _).
Qed.

Lemma normalize_price_whitespace_witness :
  ascii_lstrip (to_ascii " ") = "" ∧ ascii_lstrip (to_ascii (String "010" (String "160" ""))) = "" ∧
  normalize_price (Some (" " ++ "19.99" ++ String "010" (String "160" ""))) None =
  normalize_price (Some "19.99") None.
Proof.
  split; [reflexivity|]. split; [reflexivity|].
  apply normalize_price_whitespace; reflexivity.
Defined.

End PriceExtras.

(* ================================================================== *)
(** * What [openai_optimize] can return *)

Module RewriterExtras.

Import PyStr Rewriter.

Local Open Scope string_scope.

(** [openai_optimize] raises exactly when the package imported, the key
    is set and non-empty, and the client constructor raises; any string
    it returns is the input text or the stripped completion (cut to 80
    characters for a title). *)
Theorem openai_optimize_outcomes (E : env) (text : string) (is_title : bool) :
  (openai_optimize E text is_title = Raised ↔
   openai_imported E = true ∧
   truthy (from_option id "" (environ E !! "OPENAI_API_KEY")) = true ∧
   client_raises E = true) ∧
  (∀ out, openai_optimize E text is_title = Returned out →
   out = text ∨
   ∃ c, completion E (if is_title then TITLE_PROMPT text else DESC_PROMPT text) = Some (Some c) ∧
        out = (if is_title then substring 0 80 (strip c) else strip c)).
Proof.
  unfold openai_optimize.
  destruct (openai_imported E); simpl.
  2: { split; [split; [discriminate|intros [? _]; discriminate]|]. intros out [= ->]. by left. }
  destruct (truthy _); simpl.
  2: { split; [split; [discriminate|intros (_ & ? & _); discriminate]|]. intros out [= ->]. by left. }
  destruct (client_raises E); simpl.
  { split; [done|]. discriminate. }
  split; [split; [|intros (_ & _ & ?); discriminate]|].
  { destruct (completion E _) as [[c|]|]; discriminate. }
  intros out Hout. destruct (completion E _) as [[c|]|] eqn:Hc.
  - right. exists c. split; [done|]. injection Hout as <-. done.
  - injection Hout as <-. by left.
  - injection Hout as <-. by left.
Qed.

Lemma openai_optimize_outcomes_witness :
  let E0 := {| openai_imported := true; environ := {[ "OPENAI_API_KEY" := "sk-1" ]};
               client_raises := false; completion := λ _, Some (Some "  Nice Card  ") |} in
  openai_optimize E0 "card" true = Returned "Nice Card" ∧
  ("Nice Card" = "card" ∨
   ∃ c, completion E0 (TITLE_PROMPT "card") = Some (Some c) ∧
        "Nice Card" = substring 0 80 (strip c)).
Proof.
  intros E0. split; [reflexivity|].
  apply (proj2 (openai_optimize_outcomes E0 "card" true)). reflexivity.
Defined.

End RewriterExtras.

(* ================================================================== *)
(** * The driver [main] *)

Module MainFacts.

Import PyStr PyFloat Reconcile ReconcileFacts Rewriter Main.

Local Open Scope string_scope.

Lemma build_output_row_length headers seed t d price cat cond imgs sp out :
  build_output_row headers seed t d price cat cond imgs sp = Ok out →
  length out = length headers.
Proof.
  unfold build_output_row. destruct (build_row _ _ _ _ _ _ _ _ _); [|discriminate].
  intros [= <-]. apply length_map.
Qed.

Lemma build_output_row_raises headers seed t d price cat cond imgs sp :
  list_in "*Duration" headers = true → list_in "*Format" headers = false →
  build_output_row headers seed t d price cat cond imgs sp = Raise (KeyError "*Format").
Proof.
  intros Hd Hf. unfold build_output_row, build_row. rewrite Hd.
  by rewrite start_row_format_none.
Qed.

Section Facts.
Variable scrape : string → bool → bool → option ScrapeResult.
Variable html_text : string → string.
Variable E : env.
Variable resolve_parent : string → string.
Variables tsp tso : string.

Lemma main_row_shape a headers seed r :
  main_row scrape html_text E a headers seed = Done r →
  (truthy (strip (get seed "URL" "")) = false ∧ r = None) ∨
  (truthy (strip (get seed "URL" "")) = true ∧
   ∃ p row, r = Some (p, row) ∧ length row = length headers ∧
            (is_Some p ↔ pybool (Args.dry_run a) = true)).
Proof.
  unfold main_row, mbind, run_bind, mret, run_ret. intros H.
  destruct (truthy _) eqn:Hu; simpl in H.
  - right. split; [done|].
    repeat match type of H with
      | context [match ?m with Done _ => _ | Abort _ => _ end] =>
          destruct m eqn:?; simpl in H; try discriminate
      | context [match ?m with Some _ => _ | None => _ end] =>
          destruct m eqn:?; simpl in H; try discriminate
      end.
    all: lazymatch goal with
         | Hr : context [build_output_row ?a1 ?a2 ?a3 ?a4 ?a5 ?a6 ?a7 ?a8 ?a9] |- _ =>
             destruct (build_output_row a1 a2 a3 a4 a5 a6 a7 a8 a9) eqn:Hb
         end.
    all: cbn [of_result] in *; simplify_eq.
    all: do 2 eexists; split; [reflexivity|]; split; [by eapply build_output_row_length|].
    destruct (pybool (Args.dry_run a)); [split; [intros; reflexivity|by eexists] | split; [intros [? ?]; discriminate | discriminate]].
  - left. by injection H as <-.
Qed.

Lemma main_loop_rows a headers seeds P F P' F' :
  main_loop scrape html_text E a headers seeds P F = Done (P', F') →
  ∃ rows, F' = app F rows ∧
          length rows = length (List.filter (λ s, truthy (strip (get s "URL" ""))) seeds) ∧
          Forall (λ r, length r = length headers) rows ∧
          length P' = length P +
            (if pybool (Args.dry_run a)
             then length (List.filter (λ s, truthy (strip (get s "URL" ""))) seeds) else 0).
Proof.
  revert P F. induction seeds as [|seed rest IH]; intros P F H.
  - simpl in H. injection H as <- <-. exists []. rewrite app_nil_r.
    split; [done|]. split; [done|]. split; [constructor|]. simpl. destruct (pybool _); lia.
  - simpl in H. unfold mbind, run_bind in H.
    destruct (main_row _ _ _ _ _ _) as [r|] eqn:Hr; [|discriminate].
    apply main_row_shape in Hr as [[Hu ->]|[Hu (p & row & -> & Hlen & Hp)]].
    + apply IH in H as (rows & -> & Hl & Hf & HP). exists rows. simpl. rewrite Hu. auto.
    + apply IH in H as (rows & -> & Hl & Hf & HP). exists (row :: rows).
      rewrite <- app_assoc. simpl. rewrite Hu. simpl.
      split; [done|]. split; [lia|]. split; [by constructor|].
      rewrite HP, length_app. destruct (pybool _), p; simpl; try lia.
      * exfalso. destruct (proj2 Hp eq_refl); discriminate.
      * exfalso. assert (Hf' : false = true) by (apply (proj1 Hp); by eexists). discriminate.
Qed.

Lemma path_join_truthy (dir name : string) :
  truthy name = true → truthy (path_join dir name) = true.
Proof.
  intros Hn. unfold path_join. destruct (String.eqb dir "/"); [|by destruct dir].
  destruct dir; [|reflexivity]. exact Hn.
Qed.

Lemma default_path_truthy (dir base ts : string) :
  truthy (default_path_near_seed dir base ts) = true.
Proof.
  apply path_join_truthy. by destruct base.
Qed.

Lemma main_row_abort a headers seed r :
  list_in "*Duration" headers = true → list_in "*Format" headers = false →
  truthy (strip (get seed "URL" "")) = true →
  main_row scrape html_text E a headers seed ≠ Done r.
Proof.
  intros Hd Hf Hu H. unfold main_row, mbind, run_bind, mret, run_ret in H.
  rewrite Hu in H. simpl in H.
  repeat match type of H with
    | context [match ?m with Done _ => _ | Abort _ => _ end] =>
        destruct m eqn:?; simpl in H; try discriminate
    | context [match ?m with Some _ => _ | None => _ end] =>
        destruct m eqn:?; simpl in H; try discriminate
    end.
  all: lazymatch goal with
       | Hr : context [build_output_row ?a1 ?a2 ?a3 ?a4 ?a5 ?a6 ?a7 ?a8 ?a9] |- _ =>
           rewrite (build_output_row_raises a1 a2 a3 a4 a5 a6 a7 a8 a9 Hd Hf) in Hr
       end.
  all: discriminate.
Qed.

Lemma main_loop_no_url a headers seeds P F :
  list_in "*Duration" headers = true → list_in "*Format" headers = false →
  (∃ P' F', main_loop scrape html_text E a headers seeds P F = Done (P', F')) ↔
  Forall (λ s, truthy (strip (get s "URL" "")) = false) seeds.
Proof.
  intros Hd Hf. revert P F. induction seeds as [|seed rest IH]; intros P F.
  - split; [constructor|]. intros _. by do 2 eexists.
  - simpl. unfold mbind, run_bind. rewrite Forall_cons. split.
    + intros (P' & F' & H).
      destruct (main_row _ _ _ _ _ _) as [r|] eqn:Hr; [|discriminate].
      destruct (truthy (strip (get seed "URL" ""))) eqn:Hu.
      * by destruct (main_row_abort a headers seed r Hd Hf Hu).
      * apply main_row_shape in Hr as [[_ ->]|[Hu' _]]; [|congruence].
        split; [done|]. apply (IH P F). eauto.
    + intros [Hu Hrest].
      assert (Hr : main_row scrape html_text E a headers seed = Done None).
      { unfold main_row. by rewrite Hu. }
      rewrite Hr. by apply IH.
Qed.

Lemma main_row_offline (E' : env) a headers seed :
  Args.optimize a = 0%Z →
  main_row scrape html_text E a headers seed = main_row scrape html_text E' a headers seed.
Proof.
  intros Ho. assert (Hp : pybool (Args.optimize a) = false) by (rewrite Ho; reflexivity).
  unfold main_row. rewrite !Hp, !andb_false_r. reflexivity.
Qed.

Lemma main_loop_offline (E' : env) a headers seeds P F :
  Args.optimize a = 0%Z →
  main_loop scrape html_text E a headers seeds P F = main_loop scrape html_text E' a headers seeds P F.
Proof.
  intros Ho. revert P F. induction seeds as [|seed rest IH]; intros P F; [done|].
  simpl. rewrite (main_row_offline E') by done. unfold mbind, run_bind.
  destruct (main_row _ _ _ _ _ _) as [[[p row]|]|]; auto.
Qed.

End Facts.

End MainFacts.

Module MainExtras.

Import PyStr PyFloat Reconcile Rewriter Main MainFacts.

Local Open Scope string_scope.

Section Runs.
Variable scrape : string → bool → bool → option ScrapeResult.
Variable html_text : string → string.
Variable E : env.
Variable resolve_parent : string → string.
Variables tsp tso : string.

(** Whenever [main] completes, the final CSV it writes has one row per
    seed row whose stripped [URL] is non-empty, each row as long as the
    template's header list, and the preview CSV has one row per such
    seed row as well. *)
Theorem main_rows a headers seeds o :
  main scrape html_text E resolve_parent tsp tso a headers seeds = Done o →
  (∀ p rows, final_written o = Some (p, rows) →
     length rows = length (List.filter (λ s, truthy (strip (get s "URL" ""))) seeds) ∧
     Forall (λ r, length r = length headers) rows) ∧
  (∀ p prows, preview_written o = Some (p, prows) →
     length prows = length (List.filter (λ s, truthy (strip (get s "URL" ""))) seeds)).
Proof.
  unfold main, mbind, run_bind, mret, run_ret.
  destruct (main_loop _ _ _ _ _ _ [] []) as [[P F]|] eqn:Hl; [|discriminate].
  intros [= <-]. apply main_loop_rows in Hl as (rows & -> & Hlen & Hall & HP).
  simpl in *. split.
  - intros p rows' H. case_match; [|discriminate]. case_match; simplify_eq. done.
  - intros p prows H. destruct (pybool (Args.dry_run a)) eqn:Hdry; simpl in H; [|discriminate].
    case_match; [|discriminate]. case_match; simplify_eq. done.
Qed.

(** Whenever [main] completes, it writes the final CSV exactly when
    [--dry-run] is 0 or [--write-final] is non-zero, and the preview CSV
    exactly when [--dry-run] is non-zero; each goes to the path given on
    the command line when that path is a non-empty string, and otherwise
    to [FINAL_EBAY_UPLOAD_<ts>.csv] or [EBAY_PREVIEW_<ts>.csv] in the
    seed file's directory. *)
Theorem main_outputs a headers seeds o :
  main scrape html_text E resolve_parent tsp tso a headers seeds = Done o →
  (is_Some (final_written o) ↔ Args.dry_run a = 0%Z ∨ Args.write_final a ≠ 0%Z) ∧
  (is_Some (preview_written o) ↔ Args.dry_run a ≠ 0%Z) ∧
  (∀ p rows, final_written o = Some (p, rows) →
     p = if opt_truthy (Args.out a) then from_option id "" (Args.out a)
         else default_path_near_seed (resolve_parent (Args.seed a)) "FINAL_EBAY_UPLOAD" tso) ∧
  (∀ p rows, preview_written o = Some (p, rows) →
     p = if opt_truthy (Args.preview a) then from_option id "" (Args.preview a)
         else default_path_near_seed (resolve_parent (Args.seed a)) "EBAY_PREVIEW" tsp).
Proof.
  unfold main, mbind, run_bind, mret, run_ret.
  destruct (main_loop _ _ _ _ _ _ [] []) as [[P F]|]; [|discriminate].
  intros [= <-]. cbn -[truthy default_path_near_seed].
  pose proof (default_path_truthy (resolve_parent (Args.seed a)) "FINAL_EBAY_UPLOAD" tso) as Dout.
  pose proof (default_path_truthy (resolve_parent (Args.seed a)) "EBAY_PREVIEW" tsp) as Dprev.
  unfold pybool.
  destruct (Z.eqb_spec (Args.dry_run a) 0%Z) as [Hd|Hd];
    destruct (Z.eqb_spec (Args.write_final a) 0%Z) as [Hw|Hw].
  all: destruct (Args.out a) as [x|]; [destruct (truthy x) eqn:Hx|].
  all: destruct (Args.preview a) as [y|]; [destruct (truthy y) eqn:Hy|].
  all: cbn -[truthy default_path_near_seed]; rewrite ?Dout, ?Dprev, ?Hx, ?Hy;
    cbn -[truthy default_path_near_seed]; rewrite ?Dout, ?Dprev, ?Hx, ?Hy.
  all: repeat split; intros; simplify_eq; try done; try lia;
    repeat match goal with
      | H : is_Some None |- _ => destruct H as [? ?]; discriminate
      | H : _ ∨ _ |- _ => destruct H
      end; try lia; try by eexists.
Qed.

(** With a template listing [*Duration] but not [*Format], [main]
    completes exactly when no seed row has a non-blank [URL]: the first
    listing it reconciles raises [KeyError]. *)
Theorem main_duration_without_format a headers seeds :
  list_in "*Duration" headers = true → list_in "*Format" headers = false →
  (∃ o, main scrape html_text E resolve_parent tsp tso a headers seeds = Done o) ↔
  Forall (λ s, truthy (strip (get s "URL" "")) = false) seeds.
Proof.
  intros Hd Hf. rewrite <- (main_loop_no_url scrape html_text E a headers seeds [] [] Hd Hf).
  unfold main, mbind, run_bind, mret, run_ret.
  destruct (main_loop _ _ _ _ _ _ [] []) as [[P F]|]; split.
  - eauto.
  - eauto.
  - by intros [? ?].
  - by intros (? & ? & ?).
Qed.

(** With [--optimize 0], [main] never consults the OpenAI environment:
    its result is the same for every environment. *)
Theorem main_offline (E' : env) a headers seeds :
  Args.optimize a = 0%Z →
  main scrape html_text E resolve_parent tsp tso a headers seeds =
  main scrape html_text E' resolve_parent tsp tso a headers seeds.
Proof.
  intros Ho. unfold main. by rewrite (main_loop_offline scrape html_text E E') by done.
Qed.

(** A seed row that [main] turns into an output row was scraped at its
    stripped [URL], and the row is what the reconciler returns on the
    scraped listing, with the scraped title and description text handed
    over unchanged when the row opts out of rewriting or [--optimize] is
    0; the preview row, when there is one, records the stripped URL and
    the title handed over, and cuts both description snippets to at most
    400 characters. *)
Theorem main_row_output a headers seed p row :
  main_row scrape html_text E a headers seed = Done (Some (p, row)) →
  ∃ s ot od,
    scrape (strip (get seed "URL" "")) (pybool (Args.use_selenium a))
      (pybool (Args.headless a)) = Some s ∧
    build_output_row headers seed ot od (price s) (category_id s) (condition_text s)
      (images s) (item_specifics s) = Ok row ∧
    (get seed "OptimizeTitle" "Y" ≠ "Y" ∨ Args.optimize a = 0%Z → ot = title s) ∧
    (get seed "OptimizeDescription" "Y" ≠ "Y" ∨ Args.optimize a = 0%Z →
       od = html_text (or_str (description_html s) "")) ∧
    (∀ pr, p = Some pr →
       URL pr = strip (get seed "URL" "") ∧ Title_Optimized pr = ot ∧
       (String.length (Desc_Scraped_Snippet pr) ≤ 400)%nat ∧
       (String.length (Desc_Optimized_Snippet pr) ≤ 400)%nat).
Proof.
  unfold main_row, mbind, run_bind, mret, run_ret. intros H.
  destruct (truthy _) eqn:Hu; simpl in H; [|discriminate].
  destruct (scrape _ _ _) as [sc|] eqn:Hs; simpl in H; [|discriminate].
  destruct (of_outcome (opt_title _ _ _)) as [ot|] eqn:Ht; simpl in H; [|discriminate].
  destruct (if String.eqb (get seed "OptimizeDescription" "Y") "Y" && pybool (Args.optimize a)
            then of_outcome (openai_optimize E (html_text (or_str (description_html sc) "")) false)
            else Done (html_text (or_str (description_html sc) "")))
    as [od|] eqn:Hd; simpl in H; [|discriminate].
  destruct (build_output_row _ _ _ _ _ _ _ _ _) as [r|] eqn:Hb; simpl in H; [|discriminate].
  injection H as Hp <-. exists sc, ot, od. split; [done|]. split; [done|].
  assert (Hoff : ∀ k, get seed k "Y" ≠ "Y" ∨ Args.optimize a = 0%Z →
                 String.eqb (get seed k "Y") "Y" && pybool (Args.optimize a) = false).
  { intros k [Hk|Hk].
    - apply String.eqb_neq in Hk. by rewrite Hk.
    - rewrite Hk. apply andb_false_r. }
  split; [|split].
  - intros Hc. rewrite (Hoff _ Hc) in Ht. by injection Ht.
  - intros Hc. rewrite (Hoff _ Hc) in Hd. by injection Hd.
  - intros pr ->. destruct (pybool (Args.dry_run a)); [|discriminate].
    injection Hp as <-. simpl. split; [done|]. split; [done|].
    split; apply RewriterClaims.substring0_length.
Qed.

End Runs.


Lemma main_rows_witness :
  let sc := λ (_ : string) (_ _ : bool),
    Some {| Main.title := "Card"; Main.description_html := ""; Main.price := None;
            Main.category_id := "212"; Main.condition_text := ""; Main.images := [];
            Main.item_specifics := ∅ |} in
  let E0 := {| openai_imported := false; environ := ∅; client_raises := false;
               completion := λ _, None |} in
  let a := {| Args.seed := "seed.csv"; Args.template := "tpl.csv"; Args.out := None;
              Args.optimize := 1; Args.use_selenium := 0; Args.headless := 1;
              Args.dry_run := 1; Args.preview := None; Args.write_final := 1 |} in
  let seeds := [{[ "URL" := "https://www.ebay.com/itm/1" ]}; {[ "URL" := " " ]}] in
  ∃ o, main sc id E0 (λ _, "/data") "20250101" "20250102" a ["*Title"; "*Category"] seeds = Done o ∧
  ((∀ p rows, final_written o = Some (p, rows) →
     length rows = length (List.filter (λ s, truthy (strip (get s "URL" ""))) seeds) ∧
     Forall (λ r, length r = length ["*Title"; "*Category"]) rows) ∧
   (∀ p prows, preview_written o = Some (p, prows) →
     length prows = length (List.filter (λ s, truthy (strip (get s "URL" ""))) seeds))).
Proof.
  intros sc E0 a seeds. eexists. split; [reflexivity|].
  apply (main_rows sc id E0 (λ _, "/data") "20250101" "20250102" a ["*Title"; "*Category"] seeds).
  reflexivity.
Defined.

Lemma main_outputs_witness :
  let sc := λ (_ : string) (_ _ : bool),
    Some {| Main.title := "Card"; Main.description_html := ""; Main.price := None;
            Main.category_id := "212"; Main.condition_text := ""; Main.images := [];
            Main.item_specifics := ∅ |} in
  let E0 := {| openai_imported := false; environ := ∅; client_raises := false;
               completion := λ _, None |} in
  let a := {| Args.seed := "seed.csv"; Args.template := "tpl.csv"; Args.out := Some "";
              Args.optimize := 1; Args.use_selenium := 0; Args.headless := 1;
              Args.dry_run := 1; Args.preview := Some "prev.csv"; Args.write_final := 0 |} in
  ∃ o, main sc id E0 (λ _, "/data") "20250101" "20250102" a ["*Title"]
         [{[ "URL" := "https://www.ebay.com/itm/1" ]}] = Done o ∧
  (is_Some (final_written o) ↔ Args.dry_run a = 0%Z ∨ Args.write_final a ≠ 0%Z) ∧
  (is_Some (preview_written o) ↔ Args.dry_run a ≠ 0%Z) ∧
  (∀ p rows, final_written o = Some (p, rows) →
     p = if opt_truthy (Args.out a) then from_option id "" (Args.out a)
         else default_path_near_seed "/data" "FINAL_EBAY_UPLOAD" "20250102") ∧
  (∀ p rows, preview_written o = Some (p, rows) →
     p = if opt_truthy (Args.preview a) then from_option id "" (Args.preview a)
         else default_path_near_seed "/data" "EBAY_PREVIEW" "20250101").
Proof.
  intros sc E0 a. eexists. split; [reflexivity|].
  apply (main_outputs sc id E0 (λ _, "/data") "20250101" "20250102" a ["*Title"]
           [{[ "URL" := "https://www.ebay.com/itm/1" ]}]).
  reflexivity.
Defined.

Lemma main_duration_without_format_witness :
  let sc := λ (_ : string) (_ _ : bool),
    Some {| Main.title := "Card"; Main.description_html := ""; Main.price := None;
            Main.category_id := "212"; Main.condition_text := ""; Main.images := [];
            Main.item_specifics := ∅ |} in
  let E0 := {| openai_imported := false; environ := ∅; client_raises := false;
               completion := λ _, None |} in
  let a := {| Args.seed := "seed.csv"; Args.template := "tpl.csv"; Args.out := None;
              Args.optimize := 1; Args.use_selenium := 0; Args.headless := 1;
              Args.dry_run := 0; Args.preview := None; Args.write_final := 0 |} in
  let seeds := [{[ "URL" := "  " ]}; {[ "URL" := "https://www.ebay.com/itm/1" ]}] in
  list_in "*Duration" ["*Title"; "*Duration"] = true ∧
  list_in "*Format" ["*Title"; "*Duration"] = false ∧
  ((∃ o, main sc id E0 (λ _, "/data") "20250101" "20250102" a ["*Title"; "*Duration"] seeds
           = Done o) ↔
   Forall (λ s, truthy (strip (get s "URL" "")) = false) seeds).
Proof.
  intros sc E0 a seeds. split; [reflexivity|]. split; [reflexivity|].
  apply main_duration_without_format; reflexivity.
Defined.

Lemma main_offline_witness :
  let sc := λ (_ : string) (_ _ : bool),
    Some {| Main.title := "Card"; Main.description_html := "<p>Mint</p>"; Main.price := None;
            Main.category_id := "212"; Main.condition_text := ""; Main.images := [];
            Main.item_specifics := ∅ |} in
  let E0 := {| openai_imported := false; environ := ∅; client_raises := false;
               completion := λ _, None |} in
  let E1 := {| openai_imported := true; environ := {[ "OPENAI_API_KEY" := "sk-1" ]};
               client_raises := true; completion := λ _, Some (Some "x") |} in
  let a := {| Args.seed := "seed.csv"; Args.template := "tpl.csv"; Args.out := None;
              Args.optimize := 0; Args.use_selenium := 0; Args.headless := 1;
              Args.dry_run := 1; Args.preview := None; Args.write_final := 1 |} in
  Args.optimize a = 0%Z ∧
  main sc id E0 (λ _, "/data") "20250101" "20250102" a ["*Title"; "*Description"]
    [{[ "URL" := "https://www.ebay.com/itm/1" ]}] =
  main sc id E1 (λ _, "/data") "20250101" "20250102" a ["*Title"; "*Description"]
    [{[ "URL" := "https://www.ebay.com/itm/1" ]}].
Proof.
  intros sc E0 E1 a. split; [reflexivity|].
  apply main_offline. reflexivity.
Defined.

Lemma main_row_output_witness :
  let sc := λ (_ : string) (_ _ : bool),
    Some {| Main.title := "Card"; Main.description_html := "<p>Mint</p>"; Main.price := None;
            Main.category_id := "212"; Main.condition_text := ""; Main.images := [];
            Main.item_specifics := ∅ |} in
  let E0 := {| openai_imported := false; environ := ∅; client_raises := false;
               completion := λ _, None |} in
  let a := {| Args.seed := "seed.csv"; Args.template := "tpl.csv"; Args.out := None;
              Args.optimize := 0; Args.use_selenium := 0; Args.headless := 1;
              Args.dry_run := 1; Args.preview := None; Args.write_final := 1 |} in
  ∃ p row, main_row sc (λ h, h) E0 a ["*Title"; "*Category"]
             {[ "URL" := " https://www.ebay.com/itm/1 " ]} = Done (Some (p, row)) ∧
  ∃ s ot od,
    sc "https://www.ebay.com/itm/1" false true = Some s ∧
    build_output_row ["*Title"; "*Category"] {[ "URL" := " https://www.ebay.com/itm/1 " ]}
      ot od (price s) (category_id s) (condition_text s) (images s) (item_specifics s) = Ok row ∧
    (get {[ "URL" := " https://www.ebay.com/itm/1 " ]} "OptimizeTitle" "Y" ≠ "Y" ∨
     Args.optimize a = 0%Z → ot = title s) ∧
    (get {[ "URL" := " https://www.ebay.com/itm/1 " ]} "OptimizeDescription" "Y" ≠ "Y" ∨
     Args.optimize a = 0%Z → od = (λ h, h) (or_str (description_html s) "")) ∧
    (∀ pr, p = Some pr →
       URL pr = strip (get {[ "URL" := " https://www.ebay.com/itm/1 " ]} "URL" "") ∧
       Title_Optimized pr = ot ∧
       (String.length (Desc_Scraped_Snippet pr) ≤ 400)%nat ∧
       (String.length (Desc_Optimized_Snippet pr) ≤ 400)%nat).
Proof.
  intros sc E0 a. do 2 eexists. split; [reflexivity|].
  apply (main_row_output sc (λ h, h) E0 a ["*Title"; "*Category"]
           {[ "URL" := " https://www.ebay.com/itm/1 " ]}).
  reflexivity.
Defined.

End MainExtras.

(* ================================================================== *)
(** * From the listing page to the output row *)

Module PipelineFacts.

Import PyStr PyStrFacts PyFloat Scrape ScrapeLD Reconcile SpecNotions ReconcileFacts
  ReconcileMoreFacts.

Local Open Scope string_scope.

Lemma dict_fromkeys_head (l : list string) : head (dict_fromkeys l) = head l.
Proof.
  induction l as [|x l IH] using rev_ind; [done|].
  unfold dict_fromkeys. rewrite foldl_app. simpl. fold (dict_fromkeys l).
  destruct l as [|y l'].
  - reflexivity.
  - destruct (dict_fromkeys (y :: l')) as [|z r] eqn:Hd.
    + discriminate IH.
    + simpl in IH. destruct (list_in x (z :: r)); simpl; congruence.
Qed.

Lemma item_specifics_last (labels : list (string * option string)) (ltxt v : string) :
  truthy (strip_colon ltxt) = true → truthy v = true →
  item_specifics (app labels [(ltxt, Some v)]) !! strip_colon ltxt = Some v.
Proof.
  intros Hk Hv. unfold item_specifics. rewrite foldl_app. simpl.
  rewrite Hk, Hv. apply lookup_insert_eq.
Qed.

End PipelineFacts.

Module PipelineExtras.

Import PyStr PyStrFacts PyFloat Scrape ScrapeLD Reconcile SpecNotions ReconcileFacts
  ReconcileMoreFacts PipelineFacts.

Local Open Scope string_scope.

(** An item specific read from the listing page reaches the output row:
    when the scraped specifics come from the page's labels, the last of
    which has text [ltxt] (non-empty once colons are stripped) and the
    non-empty value [v], a [C:] column whose name, with ["C:"] removed
    and whitespace stripped, is that text holds [v], whatever the seed
    row holds. *)
Theorem page_specific_to_column labels ltxt v headers seed t d price cat cond imgs out i h :
  build_output_row headers seed t d price cat cond imgs
    (item_specifics (app labels [(ltxt, Some v)])) = Ok out →
  headers !! i = Some h → startswith h "C:" = true →
  strip (replace h "C:" "") = strip_colon ltxt →
  truthy (strip_colon ltxt) = true → truthy v = true →
  out !! i = Some v.
Proof.
  intros Hout Hi Hc Hk Hlt Hv. pose proof (headers_lookup_in _ _ _ Hi) as Hin.
  assert (Hd : h ≠ "*Duration") by (intros ->; discriminate).
  destruct (build_output_row_cell _ _ _ _ _ _ _ _ _ _ _ _ Hout Hi Hd) as (row0 & _ & ->).
  unfold get. rewrite finish_row_c by done. cbv zeta. unfold ckey. rewrite Hk.
  by rewrite item_specifics_last, Hv.
Qed.

Lemma page_specific_to_column_witness :
  build_output_row ["C:Player/Athlete"] {[ "CardCondition" := "Near Mint" ]} "" "" None "" "" []
    (item_specifics (app [("Player/Athlete:", Some "Ken Griffey Jr.")]
                         [("Player/Athlete", Some "Ken Griffey Jr")])) = Ok ["Ken Griffey Jr"] ∧
  ["Ken Griffey Jr"] !! 0%nat = Some "Ken Griffey Jr".
Proof.
  split; [reflexivity|].
  apply (page_specific_to_column [("Player/Athlete:", Some "Ken Griffey Jr.")] "Player/Athlete"
           "Ken Griffey Jr" ["C:Player/Athlete"] {[ "CardCondition" := "Near Mint" ]}
           "" "" None "" "" [] ["Ken Griffey Jr"] 0 "C:Player/Athlete"); reflexivity.
Defined.

(** When the seed row has no [PhotoURL] (blank after stripping), the
    [PictureURL] column holds the first image candidate of the page's
    [Product] data ([""] when there is none), and that candidate starts
    with ["http"]. *)
Theorem picture_url_from_page product headers seed t d price cat cond sp out i :
  build_output_row headers seed t d price cat cond (images product) sp = Ok out →
  headers !! i = Some "PictureURL" → strip (get seed "PhotoURL" "") = "" →
  out !! i = Some (from_option id "" (head (collect_images product))) ∧
  (∀ u, head (collect_images product) = Some u → startswith u "http" = true).
Proof.
  intros Hout Hi Hp. pose proof (headers_lookup_in _ _ _ Hi) as Hin. split.
  - destruct (build_output_row_cell _ _ _ _ _ _ _ _ _ _ _ _ Hout Hi) as (row0 & _ & ->);
      [discriminate|].
    unfold get. rewrite (finish_row_plain _ _ _ _ _ _ _ (picture_url seed (images product)));
      [|by right; left|done].
    unfold picture_url. rewrite Hp. unfold or_str. simpl.
    unfold images. rewrite <- dict_fromkeys_head.
    by destruct (dict_fromkeys (collect_images product)).
  - intros u Hu. apply (ImageClaims.collect_images_http product).
    destruct (collect_images product) as [|x l]; [discriminate|].
    injection Hu as ->. by left.
Qed.

Lemma picture_url_from_page_witness :
  let product : gmap string json :=
    {[ "image" := JArr [JStr "//cdn/a.jpg"; JStr "https://i.ebayimg.com/1.jpg"];
       "images" := JStr "https://i.ebayimg.com/1.jpg" ]} in
  build_output_row ["PictureURL"] {[ "PhotoURL" := " " ]} "" "" None "" "" (images product) ∅
    = Ok ["https://i.ebayimg.com/1.jpg"] ∧
  (["https://i.ebayimg.com/1.jpg"] !! 0%nat = Some (from_option id "" (head (collect_images product))) ∧
   (∀ u, head (collect_images product) = Some u → startswith u "http" = true)).
Proof.
  intros product. split; [reflexivity|].
  apply (picture_url_from_page product ["PictureURL"] {[ "PhotoURL" := " " ]} "" "" None "" "" ∅
           ["https://i.ebayimg.com/1.jpg"] 0); reflexivity.
Defined.

End PipelineExtras.
